(** * Learning Assistant: spaced-repetition scheduling and the study-item tools

    A shallow embedding of [src/utils/spaced-repetition.ts], of the
    [study_items] table of [src/db/schema.ts] and of the six tools that
    [MyMCP.init] registers in [src/index.ts].

    Conventions of the embedding.
    - A JavaScript [number] that holds a time or a count of hours is an
      integer ([Z]): intervals are whole hours.  A [Date] is its time value
      in milliseconds; an invalid [Date] and [NaN], which arise from a sum
      outside the range of [Date] and from parsing a date string, are [None]
      in [JSNum].
    - The wall clock, [crypto.randomUUID] and the D1 database are the [World]
      that every tool call threads through; a call runs in the monad [M],
      whose [Throw] is a rejected promise caught by the tool's [try]/[catch].
    - [Date.parse] and [String.prototype.toLowerCase] belong to the host and
      are parameters of the development ([Section Host]); one concrete host
      is given at the end of the definitions for the closed examples.
    - A tool's answer is the value handed to [JSON.stringify], as [Payload]. *)

From Stdlib Require Import Ascii String.
From stdpp Require Import base decidable option numbers list strings pretty sorting gmap.

Local Open Scope Z_scope.

(** ** Numbers that may be [NaN] *)

Definition JSNum := option Z.

(** [Math.floor(x / 1000)]; [NaN] stays [NaN]. *)
Definition floor_div_1000 (x : JSNum) : JSNum := (λ v, v / 1000) <$> x.

(** ** src/db/schema.ts *)

Module Level.
Inductive t := A1 | A2 | B1 | B2 | C1 | C2 | easy | medium | hard.

Global Instance eq_dec : EqDecision t.
Proof. solve_decision. Defined.

(** The column stores the enumeration member as text. *)
Definition to_string (l : t) : string :=
  match l with
  | A1 => "A1" | A2 => "A2" | B1 => "B1" | B2 => "B2" | C1 => "C1" | C2 => "C2"
  | easy => "easy" | medium => "medium" | hard => "hard"
  end.
End Level.

Inductive RecallStrength := weak | medium | strong.

Global Instance RecallStrength_eq_dec : EqDecision RecallStrength.
Proof. solve_decision. Defined.

Module studyItems.
(** One row of [sqliteTable('study_items', ...)].  [tags], [lastReviewed]
    and [notes] are the nullable columns. *)
Record row := mk {
  id : string;
  userId : string;
  type : string;
  content : string;
  level : Level.t;
  tags : option (list string);
  recallStrength : RecallStrength;
  lastReviewed : option Z;
  nextReview : Z;
  notes : option string;
  createdAt : Z;
  updatedAt : Z;
}.

(** What [db.insert(studyItems).values({...})] is given by
    [create_study_item]; the remaining columns take their defaults. *)
Record values := mkValues {
  v_id : string;
  v_userId : string;
  v_type : string;
  v_content : string;
  v_level : Level.t;
  v_tags : list string;
  v_nextReview : Z;
  v_notes : option string;
}.

(** What [.set({...})] is given by [update_study_performance]. *)
Record assignment := mkSet {
  s_recallStrength : RecallStrength;
  s_lastReviewed : Z;
  s_nextReview : Z;
  s_updatedAt : Z;
}.

Definition assign (a : assignment) (r : row) : row :=
  {| id := id r; userId := userId r; type := type r; content := content r;
     level := level r; tags := tags r;
     recallStrength := s_recallStrength a;
     lastReviewed := Some (s_lastReviewed a);
     nextReview := s_nextReview a;
     notes := notes r; createdAt := createdAt r;
     updatedAt := s_updatedAt a |}.

(** The inserted row: [recallStrength] defaults to ['weak'],
    [lastReviewed] to NULL, [createdAt] and [updatedAt] to
    [(unixepoch())], here [epoch]. *)
Definition with_defaults (epoch : Z) (v : values) : row :=
  {| id := v_id v; userId := v_userId v; type := v_type v;
     content := v_content v; level := v_level v; tags := Some (v_tags v);
     recallStrength := weak; lastReviewed := None;
     nextReview := v_nextReview v; notes := v_notes v;
     createdAt := epoch; updatedAt := epoch |}.
End studyItems.

Abbreviation StudyItem := studyItems.row.

(** ** src/utils/spaced-repetition.ts: settings *)

Record SpacedRepetitionSettings := {
  weakInterval : Z;
  mediumInterval : Z;
  strongInterval : Z;
}.

Definition DEFAULT_SETTINGS : SpacedRepetitionSettings :=
  {| weakInterval := 1; mediumInterval := 24; strongInterval := 72 |}.

(** [settings[`${recallStrength}Interval`]] *)
Definition interval_of (settings : SpacedRepetitionSettings)
    (recallStrength : RecallStrength) : Z :=
  match recallStrength with
  | weak => weakInterval settings
  | medium => mediumInterval settings
  | strong => strongInterval settings
  end.

(** ** The world of a tool call *)

Record World := mkWorld {
  clock : nat → Z;          (* successive readings of the wall clock, in ms *)
  reads : nat;              (* how many readings were taken so far *)
  uuids : nat → string;     (* successive results of crypto.randomUUID *)
  drawn : nat;              (* how many identifiers were drawn so far *)
  rows : list StudyItem;    (* the study_items table *)
  fault : option string;    (* a failure the database answers the next statement with *)
}.

Definition tick (w : World) : World :=
  mkWorld (clock w) (S (reads w)) (uuids w) (drawn w) (rows w) (fault w).

Definition draw (w : World) : World :=
  mkWorld (clock w) (reads w) (uuids w) (S (drawn w)) (rows w) (fault w).

Definition store (l : list StudyItem) (w : World) : World :=
  mkWorld (clock w) (reads w) (uuids w) (drawn w) l (fault w).

(** ** Computations: state and exceptions *)

Inductive Outcome (A : Type) :=
| Return (a : A)
| Throw (error : string).
Arguments Return {A} a.
Arguments Throw {A} error.

Definition M (A : Type) : Type := World → Outcome A * World.

Definition ret {A} (a : A) : M A := λ w, (Return a, w).

Definition throw {A} (error : string) : M A := λ w, (Throw error, w).

Definition bind {A B} (m : M A) (k : A → M B) : M B :=
  λ w, match m w with
       | (Return a, w') => k a w'
       | (Throw e, w') => (Throw e, w')
       end.

(** [try { body } catch (error) { handler(String(error)) }] *)
Definition try_catch {A} (body : M A) (handler : string → M A) : M A :=
  λ w, match body w with
       | (Return a, w') => (Return a, w')
       | (Throw e, w') => handler e w'
       end.

Notation "'let!' x ':=' m 'in' k" := (bind m (λ x, k))
  (at level 10, x name, m at level 100, k at level 200, only parsing).
Notation "'do!' m 'in' k" := (bind m (λ _, k))
  (at level 10, m at level 100, k at level 200, only parsing).

(** [new Date().getTime()] and [Date.now()]: one reading of the clock. *)
Definition Date_now : M Z := λ w, (Return (clock w (reads w)), tick w).

(** [crypto.randomUUID()] *)
Definition generateId : M string := λ w, (Return (uuids w (drawn w)), draw w).

(** ** src/utils/spaced-repetition.ts: calculateNextReview *)

(** The time value of the returned [Date] where the sum is a time value,
    that is inside the range of [Date]; this is how the tools, which pass
    the default table, use the function. *)
Definition calculateNextReview (recallStrength : RecallStrength)
    (settings : SpacedRepetitionSettings) : M Z :=
  let! now := Date_now in
  let hoursToAdd := interval_of settings recallStrength in
  ret (now + hoursToAdd * 60 * 60 * 1000).

(** The range of [Date]: 100,000,000 days on either side of the epoch. *)
Definition Date_max : Z := 8640000000000000.

(** [new Date(v).getTime()] for an integral [v]: outside the range the
    [Date] is invalid and its time value is [NaN]. *)
Definition TimeClip (v : Z) : JSNum :=
  if bool_decide (- Date_max ≤ v ≤ Date_max) then Some v else None.

(** [calculateNextReview] for any table of whole-hour intervals, with the
    range check that [new Date(...)] applies to the sum: the time value of
    the returned [Date]. *)
Definition calculateNextReview_Date (recallStrength : RecallStrength)
    (settings : SpacedRepetitionSettings) : M JSNum :=
  let! now := Date_now in
  let hoursToAdd := interval_of settings recallStrength in
  ret (TimeClip (now + hoursToAdd * 60 * 60 * 1000)).

(** ** The query layer (drizzle-orm over D1) *)

Module sql.
(** [eq(column, value)] *)
Definition eq {A} `{EqDecision A} (column : StudyItem → A) (value : A)
    : StudyItem → bool :=
  λ r, bool_decide (column r = value).

(** [lte(column, value)].  A [NaN] parameter reaches SQLite as NULL, and
    a comparison with NULL selects no row. *)
Definition lte (column : StudyItem → Z) (value : JSNum) : StudyItem → bool :=
  λ r, match value with
       | Some v => bool_decide (column r ≤ v)
       | None => false
       end.

(** [and(...conditions)] *)
Definition and (conditions : list (StudyItem → bool)) : StudyItem → bool :=
  λ r, forallb (λ c, c r) conditions.

(** [asc(column)] and [desc(column)] *)
Inductive ordering :=
| asc (column : StudyItem → Z)
| desc (column : StudyItem → Z).

Definition precedes (o : ordering) : relation StudyItem :=
  match o with
  | asc column => λ x y, column x ≤ column y
  | desc column => λ x y, column y ≤ column x
  end.

Global Instance precedes_dec o x y : Decision (precedes o x y).
Proof. destruct o; simpl; apply _. Defined.

(** Every statement first meets the database's own failures. *)
Definition statement {A} (run : World → Outcome A * World) : M A :=
  λ w, match fault w with
       | Some error => (Throw error, w)
       | None => run w
       end.

(** [db.insert(studyItems).values(v)]: [id] is the primary key; the
    defaulted timestamps are the database's [unixepoch()]. *)
Definition insert (v : studyItems.values) : M unit :=
  statement (λ w,
    if bool_decide (studyItems.v_id v ∈ studyItems.id <$> rows w)
    then (Throw "UNIQUE constraint failed: study_items.id", w)
    else
      let epoch := clock w (reads w) / 1000 in
      (Return (), store (rows w ++ [studyItems.with_defaults epoch v]) (tick w))).

(** [db.update(studyItems).set(a).where(condition)] *)
Definition update (a : studyItems.assignment) (condition : StudyItem → bool)
    : M unit :=
  statement (λ w,
    (Return (),
     store ((λ r, if condition r then studyItems.assign a r else r) <$> rows w) w)).

(** [db.select().from(studyItems).where(condition)], in table order. *)
Definition select (condition : StudyItem → bool) : M (list StudyItem) :=
  statement (λ w, (Return (filter (λ r, condition r) (rows w)), w)).

(** [db.select().from(studyItems).where(condition).orderBy(o)] *)
Definition select_orderBy (condition : StudyItem → bool) (o : ordering)
    : M (list StudyItem) :=
  statement (λ w,
    (Return (merge_sort (precedes o) (filter (λ r, condition r) (rows w))), w)).

(** [db.selectDistinct({ type: studyItems.type }).from(studyItems).where(condition)],
    already mapped to the [type] field. *)
Definition selectDistinct_type (condition : StudyItem → bool) : M (list string) :=
  statement (λ w,
    (Return (remove_dups (studyItems.type <$> filter (λ r, condition r) (rows w))), w)).
End sql.

(** ** JavaScript values used by the tools *)

(** An optional string argument under [if (x)]: absent and empty are falsy. *)
Definition truthy (x : option string) : option string :=
  match x with
  | Some s => if bool_decide (s = "") then None else Some s
  | None => None
  end.

(** [s.includes(search)] on strings: [search] occurs in [s]. *)
Fixpoint includes (s search : string) : bool :=
  String.prefix search s ||
  match s with
  | EmptyString => false
  | String _ s' => includes s' search
  end.

(** [item => tags.some(tag => item.tags?.includes(tag) || false)] *)
Definition some_tag_included (tags : list string) (item : StudyItem) : bool :=
  existsb (λ tag,
    match studyItems.tags item with
    | Some stored => bool_decide (tag ∈ stored)
    | None => false
    end || false) tags.

(** ** What a tool hands to [JSON.stringify] *)

Record ByRecallStrength := {
  n_weak : nat;
  n_medium : nat;
  n_strong : nat;
}.

Record LearningStats := {
  total : nat;
  byRecallStrength : ByRecallStrength;
  byLevel : gmap string nat;
  byType : gmap string nat;
  dueForReview : nat;
  reviewedToday : nat;
}.

Inductive Payload :=
| Created (id : string)                 (* { id, success: true } *)
| Success                               (* { success: true } *)
| Items (results : list StudyItem)      (* the rows *)
| Types (types : list string)           (* the type names *)
| Stats (stats : LearningStats)         (* the stats object *)
| Failure (error : string).             (* { error, success: false } *)

(** [(counts[key] || 0) + 1] stored back under [key]. *)
Definition count_key (counts : gmap string nat) (key : string) : gmap string nat :=
  <[key := (default 0 (counts !! key) + 1)%nat]> counts.

(** ** src/index.ts: the six tools *)

Section Host.
(** [new Date(s).getTime()]: the time value of a recognised date string,
    [NaN] otherwise; it never throws. *)
Variable Date_parse : string → JSNum.
(** [s.toLowerCase()] *)
Variable toLowerCase : string → string.

Definition create_study_item (userId type content : string) (level : Level.t)
    (tags : option (list string)) (notes : option string) : M Payload :=
  let tags := default [] tags in
  try_catch
    (let! id := generateId in
     let! nextReview := calculateNextReview weak DEFAULT_SETTINGS in
     do! sql.insert
           {| studyItems.v_id := id;
              studyItems.v_userId := userId;
              studyItems.v_type := type;
              studyItems.v_content := content;
              studyItems.v_level := level;
              studyItems.v_tags := tags;
              studyItems.v_nextReview := nextReview / 1000;
              studyItems.v_notes := notes |} in
     ret (Created id))
    (λ error, ret (Failure error)).

Definition update_study_performance (id userId : string)
    (recallStrength : RecallStrength) : M Payload :=
  try_catch
    (let! nextReview := calculateNextReview recallStrength DEFAULT_SETTINGS in
     let! now_ms := Date_now in
     let now := now_ms / 1000 in
     let! nowDate := Date_now in
     do! sql.update
           {| studyItems.s_recallStrength := recallStrength;
              studyItems.s_lastReviewed := now;
              studyItems.s_nextReview := nextReview / 1000;
              studyItems.s_updatedAt := nowDate / 1000 |}
           (sql.and [sql.eq studyItems.id id; sql.eq studyItems.userId userId]) in
     ret Success)
    (λ error, ret (Failure error)).

Definition search_conditions (userId : string) (type : option string)
    (level : option Level.t) : list (StudyItem → bool) :=
  let conditions := [sql.eq studyItems.userId userId] in
  let conditions :=
    match truthy type with
    | Some type => conditions ++ [sql.eq studyItems.type type]
    | None => conditions
    end in
  match level with
  | Some level => conditions ++ [sql.eq studyItems.level level]
  | None => conditions
  end.

Definition content_matches (content : string) (item : StudyItem) : bool :=
  includes (toLowerCase (studyItems.content item)) (toLowerCase content).

Definition search_study_items (userId : string) (content : option string)
    (tags : option (list string)) (type : option string)
    (level : option Level.t) : M Payload :=
  try_catch
    (let conditions := search_conditions userId type level in
     let! results :=
       sql.select_orderBy (sql.and conditions) (sql.desc studyItems.updatedAt) in
     let filteredResults := results in
     let filteredResults :=
       match truthy content with
       | Some content => filter (λ item, content_matches content item) filteredResults
       | None => filteredResults
       end in
     let filteredResults :=
       match tags with
       | Some (tag :: more) =>
           filter (λ item, some_tag_included (tag :: more) item) filteredResults
       | _ => filteredResults
       end in
     ret (Items filteredResults))
    (λ error, ret (Failure error)).

Definition review_conditions (userId : string)
    (recallStrength : option RecallStrength) (dueBeforeTimestamp : JSNum)
    : list (StudyItem → bool) :=
  let conditions :=
    [sql.eq studyItems.userId userId;
     sql.lte studyItems.nextReview dueBeforeTimestamp] in
  match recallStrength with
  | Some recallStrength =>
      conditions ++ [sql.eq studyItems.recallStrength recallStrength]
  | None => conditions
  end.

(** [dueBefore ? Math.floor(new Date(dueBefore).getTime() / 1000) : now] *)
Definition due_threshold (now : Z) (dueBefore : option string) : JSNum :=
  match truthy dueBefore with
  | Some dueBefore => floor_div_1000 (Date_parse dueBefore)
  | None => Some now
  end.

Definition get_items_for_review (userId : string)
    (recallStrength : option RecallStrength) (dueBefore : option string)
    : M Payload :=
  try_catch
    (let! now_ms := Date_now in
     let now := now_ms / 1000 in
     let dueBeforeTimestamp := due_threshold now dueBefore in
     let conditions := review_conditions userId recallStrength dueBeforeTimestamp in
     let! results :=
       sql.select_orderBy (sql.and conditions) (sql.asc studyItems.nextReview) in
     ret (Items results))
    (λ error, ret (Failure error)).

Definition get_study_types (userId : string) : M Payload :=
  try_catch
    (let! types := sql.selectDistinct_type (sql.eq studyItems.userId userId) in
     ret (Types types))
    (λ error, ret (Failure error)).

Definition count_where (P : StudyItem → bool) (allItems : list StudyItem) : nat :=
  length (filter (λ item, P item) allItems).

Definition learning_stats (allItems : list StudyItem) (now : Z) : LearningStats :=
  {| total := length allItems;
     byRecallStrength :=
       {| n_weak := count_where (sql.eq studyItems.recallStrength weak) allItems;
          n_medium := count_where (sql.eq studyItems.recallStrength medium) allItems;
          n_strong := count_where (sql.eq studyItems.recallStrength strong) allItems |};
     byLevel :=
       foldl (λ counts item, count_key counts (Level.to_string (studyItems.level item)))
             ∅ allItems;
     byType :=
       foldl (λ counts item, count_key counts (studyItems.type item)) ∅ allItems;
     dueForReview :=
       count_where (λ item, bool_decide (studyItems.nextReview item ≤ now)) allItems;
     reviewedToday :=
       count_where (λ item,
         match studyItems.lastReviewed item with
         | Some lastReviewed =>
             bool_decide (lastReviewed ≠ 0) && bool_decide (now - 86400 ≤ lastReviewed)
         | None => false
         end) allItems |}.

Definition get_learning_stats (userId : string) : M Payload :=
  try_catch
    (let! allItems := sql.select (sql.eq studyItems.userId userId) in
     let! now_ms := Date_now in
     let now := now_ms / 1000 in
     ret (Stats (learning_stats allItems now)))
    (λ error, ret (Failure error)).

(** A request to one of the registered tools, and its handler. *)
Inductive ToolCall :=
| call_create_study_item (userId type content : string) (level : Level.t)
    (tags : option (list string)) (notes : option string)
| call_update_study_performance (id userId : string) (recallStrength : RecallStrength)
| call_search_study_items (userId : string) (content : option string)
    (tags : option (list string)) (type : option string) (level : option Level.t)
| call_get_items_for_review (userId : string)
    (recallStrength : option RecallStrength) (dueBefore : option string)
| call_get_study_types (userId : string)
| call_get_learning_stats (userId : string).

Definition caller (c : ToolCall) : string :=
  match c with
  | call_create_study_item userId _ _ _ _ _ => userId
  | call_update_study_performance _ userId _ => userId
  | call_search_study_items userId _ _ _ _ => userId
  | call_get_items_for_review userId _ _ => userId
  | call_get_study_types userId => userId
  | call_get_learning_stats userId => userId
  end.

Definition handle (c : ToolCall) : M Payload :=
  match c with
  | call_create_study_item userId type content level tags notes =>
      create_study_item userId type content level tags notes
  | call_update_study_performance id userId recallStrength =>
      update_study_performance id userId recallStrength
  | call_search_study_items userId content tags type level =>
      search_study_items userId content tags type level
  | call_get_items_for_review userId recallStrength dueBefore =>
      get_items_for_review userId recallStrength dueBefore
  | call_get_study_types userId => get_study_types userId
  | call_get_learning_stats userId => get_learning_stats userId
  end.
End Host.

(** ** One host, for the closed examples

    [host.Date_parse] recognises the two UTC shapes of the ECMAScript date
    time string format that clients of the tools send, [YYYY-MM-DD] and
    [YYYY-MM-DDTHH:mm:ss.sssZ] (the output of [toISOString]), with the
    element ranges V8 checks; every other string is unrecognised.
    [host.toLowerCase] folds the ASCII letters. *)

Module host.
Definition digit (c : ascii) : option Z :=
  let n := Z.of_N (N_of_ascii c) in
  if bool_decide (48 ≤ n ≤ 57) then Some (n - 48) else None.

(** Exactly [n] decimal digits. *)
Fixpoint number (n : nat) (acc : Z) (cs : list ascii) : option (Z * list ascii) :=
  match n, cs with
  | O, _ => Some (acc, cs)
  | S n', c :: cs' => d ← digit c; number n' (10 * acc + d) cs'
  | S _, [] => None
  end.

Definition expect (c : ascii) (cs : list ascii) : option (list ascii) :=
  match cs with
  | c' :: cs' => if Ascii.eqb c c' then Some cs' else None
  | [] => None
  end.

(** Days from 1970-01-01 to the civil date [y]-[m]-[d] (proleptic Gregorian). *)
Definition days_from_civil (y m d : Z) : Z :=
  let y' := if bool_decide (m ≤ 2) then y - 1 else y in
  let era := y' / 400 in
  let yoe := y' - era * 400 in
  let mp := if bool_decide (2 < m) then m - 3 else m + 9 in
  let doy := (153 * mp + 2) / 5 + d - 1 in
  let doe := yoe * 365 + yoe / 4 - yoe / 100 + doy in
  era * 146097 + doe - 719468.

Definition time_value (days h mi s ms : Z) : Z :=
  (((days * 24 + h) * 60 + mi) * 60 + s) * 1000 + ms.

Definition parse_time (days : Z) (cs : list ascii) : JSNum :=
  cs ← expect "T" cs;
  '(h, cs) ← number 2 0 cs;
  cs ← expect ":" cs;
  '(mi, cs) ← number 2 0 cs;
  cs ← expect ":" cs;
  '(s, cs) ← number 2 0 cs;
  cs ← expect "." cs;
  '(ms, cs) ← number 3 0 cs;
  cs ← expect "Z" cs;
  if bool_decide (cs = [] ∧ h ≤ 23 ∧ mi ≤ 59 ∧ s ≤ 59)
  then Some (time_value days h mi s ms)
  else None.

Definition Date_parse (s : string) : JSNum :=
  '(y, cs) ← number 4 0 (list_ascii_of_string s);
  cs ← expect "-" cs;
  '(m, cs) ← number 2 0 cs;
  cs ← expect "-" cs;
  '(d, cs) ← number 2 0 cs;
  if bool_decide (1 ≤ m ≤ 12 ∧ 1 ≤ d ≤ 31)
  then
    let days := days_from_civil y m 1 + d - 1 in
    match cs with
    | [] => Some (time_value days 0 0 0 0)
    | _ => parse_time days cs
    end
  else None.

Definition lower (c : ascii) : ascii :=
  let n := N_of_ascii c in
  if bool_decide (65 ≤ n ≤ 90)%N then ascii_of_N (n + 32) else c.

Fixpoint toLowerCase (s : string) : string :=
  match s with
  | EmptyString => EmptyString
  | String c s' => String (lower c) (toLowerCase s')
  end.
End host.

(** ** A small table, for the closed examples

    Two users; [bob]'s row has NULL tags.  The clock starts at
    2023-11-14T22:13:20Z and advances one millisecond per reading. *)

Module sample.
Definition bonjour : StudyItem :=
  {| studyItems.id := "i0"; studyItems.userId := "alice";
     studyItems.type := "vocab"; studyItems.content := "Bonjour";
     studyItems.level := Level.A1; studyItems.tags := Some ["x"; "y"];
     studyItems.recallStrength := weak; studyItems.lastReviewed := None;
     studyItems.nextReview := 1700000000; studyItems.notes := None;
     studyItems.createdAt := 1699990000; studyItems.updatedAt := 1699990000 |}.

Definition subjonctif : StudyItem :=
  {| studyItems.id := "i1"; studyItems.userId := "alice";
     studyItems.type := "grammar"; studyItems.content := "Le subjonctif";
     studyItems.level := Level.B2; studyItems.tags := Some ["y"; "z"];
     studyItems.recallStrength := medium; studyItems.lastReviewed := Some 1699913700;
     studyItems.nextReview := 1700000100; studyItems.notes := Some "irregular";
     studyItems.createdAt := 1699990000; studyItems.updatedAt := 1699990500 |}.

Definition hola : StudyItem :=
  {| studyItems.id := "i2"; studyItems.userId := "bob";
     studyItems.type := "vocab"; studyItems.content := "Hola";
     studyItems.level := Level.A2; studyItems.tags := None;
     studyItems.recallStrength := medium; studyItems.lastReviewed := Some 1699000000;
     studyItems.nextReview := 1699999000; studyItems.notes := None;
     studyItems.createdAt := 1699990000; studyItems.updatedAt := 1699990001 |}.

Definition world : World :=
  {| clock := λ n, 1700000000000 + Z.of_nat n; reads := 0;
     uuids := λ n, "uuid-" +:+ pretty n; drawn := 0;
     rows := [bonjour; subjonctif; hola]; fault := None |}.

(** A row of [bob] under the identifier that [world] draws next, and the
    table with it in place of [hola]. *)
Definition clash : StudyItem :=
  {| studyItems.id := "uuid-0"; studyItems.userId := "bob";
     studyItems.type := "vocab"; studyItems.content := "Adios";
     studyItems.level := Level.A2; studyItems.tags := Some [];
     studyItems.recallStrength := weak; studyItems.lastReviewed := None;
     studyItems.nextReview := 1699999000; studyItems.notes := None;
     studyItems.createdAt := 1699990000; studyItems.updatedAt := 1699990002 |}.

Definition clashing : World :=
  {| clock := λ n, 1700000000000 + Z.of_nat n; reads := 0;
     uuids := λ n, "uuid-" +:+ pretty n; drawn := 0;
     rows := [bonjour; subjonctif; clash]; fault := None |}.

(** The same table behind a failing database. *)
Definition broken : World :=
  {| clock := clock world; reads := 0; uuids := uuids world; drawn := 0;
     rows := rows world; fault := Some "D1_ERROR: no such table: study_items" |}.
End sample.

(** ** Vocabulary of the statements *)

(** The row [create_study_item] asks the database to add in world [w]. *)
Definition created_item (userId type content : string) (level : Level.t)
    (tags : option (list string)) (notes : option string) (w : World) : StudyItem :=
  studyItems.with_defaults (clock w (S (reads w)) / 1000)
    {| studyItems.v_id := uuids w (drawn w);
       studyItems.v_userId := userId;
       studyItems.v_type := type;
       studyItems.v_content := content;
       studyItems.v_level := level;
       studyItems.v_tags := default [] tags;
       studyItems.v_nextReview :=
         (clock w (reads w) + interval_of DEFAULT_SETTINGS weak * 60 * 60 * 1000) / 1000;
       studyItems.v_notes := notes |}.

(** The identifier the next creation draws is not in the table yet. *)
Definition fresh_id (w : World) : Prop :=
  uuids w (drawn w) ∉ studyItems.id <$> rows w.

Global Instance fresh_id_dec w : Decision (fresh_id w).
Proof. unfold fresh_id. apply _. Defined.

(** The row selected by [and(eq(id, id), eq(userId, userId))]. *)
Definition matched (id userId : string) (r : StudyItem) : Prop :=
  studyItems.id r = id ∧ studyItems.userId r = userId.

(** The assignment [update_study_performance] sends in world [w]. *)
Definition performance (recallStrength : RecallStrength) (w : World)
    : studyItems.assignment :=
  {| studyItems.s_recallStrength := recallStrength;
     studyItems.s_lastReviewed := clock w (S (reads w)) / 1000;
     studyItems.s_nextReview :=
       (clock w (reads w)
        + interval_of DEFAULT_SETTINGS recallStrength * 60 * 60 * 1000) / 1000;
     studyItems.s_updatedAt := clock w (S (S (reads w))) / 1000 |}.

(** An item of [userId] that is due at [threshold], of the given recall
    strength when one is asked for.  Nothing is due at a [NaN] threshold. *)
Definition due_for (userId : string) (recallStrength : option RecallStrength)
    (threshold : JSNum) (item : StudyItem) : Prop :=
  studyItems.userId item = userId
  ∧ match threshold with
    | Some t => studyItems.nextReview item ≤ t
    | None => False
    end
  ∧ match recallStrength with
    | Some s => studyItems.recallStrength item = s
    | None => True
    end.

Global Instance due_for_dec userId recallStrength threshold item :
  Decision (due_for userId recallStrength threshold item).
Proof. unfold due_for. destruct threshold, recallStrength; apply _. Defined.

(** The threshold in the words of the specification: [dueBefore] parsed to
    seconds when supplied, the current time otherwise. *)
Definition stated_threshold (Date_parse : string → JSNum) (now : Z)
    (dueBefore : option string) : JSNum :=
  match dueBefore with
  | Some dueBefore => floor_div_1000 (Date_parse dueBefore)
  | None => Some now
  end.

(** [item] shares a tag with [tags]; a row without tags shares none. *)
Definition shares_a_tag (tags : list string) (item : StudyItem) : Prop :=
  match studyItems.tags item with
  | Some stored => Exists (λ tag, tag ∈ stored) tags
  | None => False
  end.

Global Instance shares_a_tag_dec tags item : Decision (shares_a_tag tags item).
Proof. unfold shares_a_tag. destruct (studyItems.tags item); apply _. Defined.

(** An item of [userId] that passes the filters of a search.  An absent or
    empty [type] or [content], and an absent or empty [tags], filter nothing. *)
Definition search_hit (toLowerCase : string → string) (userId : string)
    (content : option string) (tags : option (list string)) (type : option string)
    (level : option Level.t) (item : StudyItem) : Prop :=
  studyItems.userId item = userId
  ∧ match type with
    | Some t => t = "" ∨ studyItems.type item = t
    | None => True
    end
  ∧ match level with
    | Some l => studyItems.level item = l
    | None => True
    end
  ∧ match content with
    | Some c => c = "" ∨ includes (toLowerCase (studyItems.content item)) (toLowerCase c)
    | None => True
    end
  ∧ match tags with
    | Some ts => ts = [] ∨ shares_a_tag ts item
    | None => True
    end.

Global Instance search_hit_dec toLowerCase userId content tags type level item :
  Decision (search_hit toLowerCase userId content tags type level item).
Proof. unfold search_hit. destruct type, level, content, tags; apply _. Defined.

(** The rows of one user, in table order. *)
Definition owned_by (userId : string) (l : list StudyItem) : list StudyItem :=
  filter (λ r, studyItems.userId r = userId) l.

(** Two worlds that differ at most in the table. *)
Definition same_surroundings (w1 w2 : World) : Prop :=
  clock w1 = clock w2 ∧ reads w1 = reads w2 ∧ uuids w1 = uuids w2
  ∧ drawn w1 = drawn w2 ∧ fault w1 = fault w2.

Definition is_create (c : ToolCall) : Prop :=
  match c with
  | call_create_study_item _ _ _ _ _ _ => True
  | _ => False
  end.

(** The tools that only select. *)
Definition is_query (c : ToolCall) : Prop :=
  match c with
  | call_create_study_item _ _ _ _ _ _ => False
  | call_update_study_performance _ _ _ => False
  | _ => True
  end.

(** The property names every object inherits from [Object.prototype]:
    under such a key, [counts[key]] of a fresh [{}] is not [undefined], and
    [count_key] does not describe what the tool stores there. *)
Definition Object_prototype_names : list string :=
  ["constructor"; "__proto__"; "hasOwnProperty"; "isPrototypeOf";
   "propertyIsEnumerable"; "toLocaleString"; "toString"; "valueOf";
   "__defineGetter__"; "__defineSetter__"; "__lookupGetter__"; "__lookupSetter__"].

(** * Properties *)

(** ** Strings, lists and orderings *)

Lemma rows_store (l : list StudyItem) (w : World) : rows (store l w) = l.
Proof. reflexivity. Qed.

Lemma prefix_append (t s : string) :
  String.prefix t s = true ↔ ∃ post, s = t +:+ post.
Proof.
  revert s. induction t as [|c t IH]; intros s.
  - destruct s; simpl; (split; [intros _; by eexists|done]).
  - destruct s as [|c' s]; simpl.
    + split; [done|]. by intros [post ?].
    + destruct (Ascii.ascii_dec c c') as [->|Hne].
      * rewrite IH. split; intros [post Hpost]; exists post;
          [by rewrite Hpost|by injection Hpost].
      * split; [done|]. intros [post Heq]. injection Heq as Hc _. by destruct Hne.
Qed.

Lemma includes_empty (t : string) : includes "" t = String.prefix t "" || false.
Proof. reflexivity. Qed.

Lemma includes_String (c : ascii) (s t : string) :
  includes (String c s) t = String.prefix t (String c s) || includes s t.
Proof. reflexivity. Qed.

(** [includes] is the substring test. *)
Lemma includes_substring (s t : string) :
  includes s t = true ↔ ∃ pre post, s = pre +:+ t +:+ post.
Proof.
  induction s as [|c s IH].
  - rewrite includes_empty, orb_false_r, prefix_append. split.
    + intros [post ?]. by exists "", post.
    + intros ([|c pre] & post & Heq); [by exists post|discriminate Heq].
  - rewrite includes_String, orb_true_iff, prefix_append, IH. split.
    + intros [[post Heq]|(pre & post & Heq)].
      * by exists "", post.
      * exists (String c pre), post. simpl. by rewrite Heq.
    + intros ([|c' pre] & post & Heq).
      * left. by exists post.
      * right. exists pre, post. by injection Heq.
Qed.

Lemma StronglySorted_filter {A} (R : relation A) (P : A → Prop)
    `{!∀ x, Decision (P x)} (l : list A) :
  StronglySorted R l → StronglySorted R (filter P l).
Proof.
  induction 1 as [|x l Hl IH Hx]; [constructor|].
  rewrite filter_cons. case_decide; [|done].
  constructor; [done|].
  apply Forall_forall. intros y Hy. apply list_elem_of_filter in Hy as [_ Hy].
  rewrite Forall_forall in Hx. by apply Hx.
Qed.

Lemma filter_all {A} (P : A → Prop) `{!∀ x, Decision (P x)} (l : list A) :
  (∀ x, P x) → filter P l = l.
Proof.
  intros HP. induction l as [|x l IH]; [done|].
  rewrite filter_cons_True by done. by f_equal.
Qed.

Lemma filter_none {A} (P : A → Prop) `{!∀ x, Decision (P x)} (l : list A) :
  (∀ x, ¬ P x) → filter P l = [].
Proof.
  intros HP. induction l as [|x l IH]; [done|].
  by rewrite filter_cons_False.
Qed.

Global Instance precedes_total (o : sql.ordering) : Total (sql.precedes o).
Proof. intros x y. destruct o; simpl; lia. Qed.

Global Instance precedes_transitive (o : sql.ordering) : Transitive (sql.precedes o).
Proof. intros x y z. destruct o; simpl; lia. Qed.

(** ** The query layer *)

Lemma statement_fault {A} (run : World → Outcome A * World) (w : World)
    (error : string) :
  fault w = Some error → sql.statement run w = (Throw error, w).
Proof. intros Hfault. unfold sql.statement. by rewrite Hfault. Qed.

(** What an ordered selection returns: the selected rows, each as often as
    the table holds it, in the requested order. *)
Lemma select_orderBy_ok (condition : StudyItem → bool) (o : sql.ordering) (w : World) :
  fault w = None →
  ∃ results : list StudyItem,
    sql.select_orderBy condition o w = (Return results, w)
    ∧ results ≡ₚ filter (λ r, condition r) (rows w)
    ∧ StronglySorted (sql.precedes o) results.
Proof.
  intros Hfault. eexists. unfold sql.select_orderBy, sql.statement. rewrite Hfault.
  split; [done|]. split.
  - apply merge_sort_Permutation.
  - apply (StronglySorted_merge_sort _).
Qed.

Lemma filter_owned (condition : StudyItem → bool) (userId : string)
    (l : list StudyItem) :
  (∀ r, condition r → studyItems.userId r = userId) →
  filter (λ r, condition r) l = filter (λ r, condition r) (owned_by userId l).
Proof.
  intros Hscoped. unfold owned_by. rewrite list_filter_filter.
  apply list_filter_iff. intros r. split; [|tauto]. intros Hr. split; [done|].
  by apply Hscoped.
Qed.

Lemma eq_userId_owned (userId : string) (r : StudyItem) :
  sql.eq studyItems.userId userId r → studyItems.userId r = userId.
Proof. unfold sql.eq. apply bool_decide_unpack. Qed.

(** ** The scheduler *)

Lemma calculateNextReview_run (s : RecallStrength) (settings : SpacedRepetitionSettings)
    (w : World) :
  calculateNextReview s settings w
  = (Return (clock w (reads w) + interval_of settings s * 60 * 60 * 1000), tick w).
Proof. reflexivity. Qed.

(** Inside the range of [Date] the two readings of the function agree. *)
Lemma calculateNextReview_Date_in_range (s : RecallStrength)
    (settings : SpacedRepetitionSettings) (w : World) :
  - Date_max ≤ clock w (reads w) + interval_of settings s * 3600000 ≤ Date_max →
  calculateNextReview_Date s settings w
  = (Return (Some (clock w (reads w) + interval_of settings s * 3600000)), tick w)
  ∧ calculateNextReview s settings w
    = (Return (clock w (reads w) + interval_of settings s * 3600000), tick w).
Proof.
  intros Hrange. rewrite calculateNextReview_run.
  unfold calculateNextReview_Date, bind, Date_now, ret, TimeClip.
  replace (clock w (reads w) + interval_of settings s * 60 * 60 * 1000)
    with (clock w (reads w) + interval_of settings s * 3600000) by lia.
  by rewrite bool_decide_eq_true_2.
Qed.

(** C1, as amended.  For every recall strength and every settings table of
    whole-hour intervals, as long as the clock reading plus the table's
    interval for the strength lies inside the range of [Date],
    [calculateNextReview] reads the clock once and returns exactly that sum
    as a timestamp; with a positive interval the result is strictly later
    than the reading.  Outside the range the returned [Date] is invalid. *)
Theorem calculateNextReview_Date_offset (s : RecallStrength)
    (settings : SpacedRepetitionSettings) (w : World) :
  let now := clock w (reads w) in
  let hours := interval_of settings s in
  (- Date_max ≤ now + hours * 3600000 ≤ Date_max →
   ∃ next : Z,
     calculateNextReview_Date s settings w = (Return (Some next), tick w)
     ∧ calculateNextReview s settings w = (Return next, tick w)
     ∧ next = now + hours * 3600000
     ∧ (0 < hours → now < next ∧ next - now = hours * 3600000))
  ∧ (¬ (- Date_max ≤ now + hours * 3600000 ≤ Date_max) →
     calculateNextReview_Date s settings w = (Return None, tick w)).
Proof.
  intros now hours. split.
  - intros Hrange. exists (now + hours * 3600000).
    destruct (calculateNextReview_Date_in_range s settings w Hrange) as [-> ->].
    split; [done|]. split; [done|]. split; [done|]. lia.
  - intros Hout. unfold calculateNextReview_Date, bind, Date_now, ret, TimeClip.
    rewrite bool_decide_eq_false_2; [done|]. subst now hours. lia.
Qed.

Lemma calculateNextReview_Date_offset_witness :
  ∃ next : Z,
    calculateNextReview_Date medium DEFAULT_SETTINGS sample.world
    = (Return (Some next), tick sample.world)
    ∧ next = 1700086400000
    ∧ 1700000000000 < next.
Proof.
  destruct (calculateNextReview_Date_offset medium DEFAULT_SETTINGS sample.world)
    as [Hin _].
  destruct Hin as (next & Hrun & _ & Hnext & Hlater); [vm_compute; split; discriminate|].
  exists next. split; [exact Hrun|]. split; [exact Hnext|].
  destruct Hlater as [Hlt _]; [reflexivity|exact Hlt].
Defined.

(** C1 as stated fails for a table whose interval carries the sum out of the
    range of [Date]: with 3,000,000,000 hours, a positive interval, the
    returned [Date] is invalid instead of the reading plus the interval. *)
Lemma calculateNextReview_Date_out_of_range :
  0 < interval_of {| weakInterval := 3000000000; mediumInterval := 24;
                     strongInterval := 72 |} weak
  ∧ fst (calculateNextReview_Date weak
           {| weakInterval := 3000000000; mediumInterval := 24; strongInterval := 72 |}
           sample.world)
    = Return None
  ∧ clock sample.world (reads sample.world) + 3000000000 * 3600000
    = 10801700000000000.
Proof. by vm_compute. Qed.

(** C9.  With the default table and one and the same clock reading, the
    three review times are strictly increasing in the recall strength: one
    hour, 24 hours and 72 hours after the reading. *)
Theorem default_schedule_strictly_monotone (w : World) :
  ∃ t_weak t_medium t_strong : Z,
    fst (calculateNextReview weak DEFAULT_SETTINGS w) = Return t_weak
    ∧ fst (calculateNextReview medium DEFAULT_SETTINGS w) = Return t_medium
    ∧ fst (calculateNextReview strong DEFAULT_SETTINGS w) = Return t_strong
    ∧ t_weak < t_medium < t_strong
    ∧ t_weak - clock w (reads w) = 1 * 3600000
    ∧ t_medium - clock w (reads w) = 24 * 3600000
    ∧ t_strong - clock w (reads w) = 72 * 3600000.
Proof.
  do 3 eexists. rewrite !calculateNextReview_run. simpl.
  repeat split; lia.
Qed.

(** ** create_study_item *)

Section Create.
Variables (userId type content : string) (level : Level.t).
Variables (tags : option (list string)) (notes : option string).

Lemma create_study_item_ok (w : World) :
  fault w = None →
  fresh_id w →
  create_study_item userId type content level tags notes w
  = (Return (Created (uuids w (drawn w))),
     store (rows w ++ [created_item userId type content level tags notes w])
           (tick (tick (draw w)))).
Proof.
  intros Hfault Hfresh.
  unfold create_study_item, try_catch, bind, generateId, calculateNextReview,
    Date_now, sql.insert, sql.statement, ret. simpl.
  rewrite Hfault. simpl. rewrite bool_decide_eq_false_2 by done. reflexivity.
Qed.

Lemma create_study_item_fault (w : World) (error : string) :
  fault w = Some error →
  create_study_item userId type content level tags notes w
  = (Return (Failure error), tick (draw w)).
Proof.
  intros Hfault.
  unfold create_study_item, try_catch, bind, generateId, calculateNextReview,
    Date_now, sql.insert, sql.statement, ret. simpl.
  by rewrite Hfault.
Qed.

Lemma create_study_item_duplicate (w : World) :
  fault w = None →
  ¬ fresh_id w →
  create_study_item userId type content level tags notes w
  = (Return (Failure "UNIQUE constraint failed: study_items.id"), tick (draw w)).
Proof.
  intros Hfault Hdup. apply dec_stable in Hdup.
  unfold create_study_item, try_catch, bind, generateId, calculateNextReview,
    Date_now, sql.insert, sql.statement, ret. simpl.
  rewrite Hfault. simpl. by rewrite bool_decide_eq_true_2.
Qed.

(** C5.  Whatever [type], [content], [level], [tags] and [notes] are
    supplied, a creation that the database accepts adds exactly one row; it
    has [recallStrength = weak] and its [nextReview] is the second of the
    creation time plus 3600 seconds (one hour, the default weak interval),
    that is [createdAt] plus one hour when the database stamps the row in
    the same second.  The tool has no argument through which either column
    could be set. *)
Theorem create_study_item_weak_one_hour (w : World) :
  fault w = None →
  fresh_id w →
  ∃ (item : StudyItem) (w' : World),
    create_study_item userId type content level tags notes w
    = (Return (Created (studyItems.id item)), w')
    ∧ rows w' = rows w ++ [item]
    ∧ studyItems.recallStrength item = weak
    ∧ studyItems.nextReview item = clock w (reads w) / 1000 + 3600
    ∧ studyItems.lastReviewed item = None
    ∧ studyItems.userId item = userId
    ∧ studyItems.type item = type
    ∧ studyItems.content item = content
    ∧ studyItems.level item = level
    ∧ studyItems.tags item = Some (default [] tags)
    ∧ studyItems.notes item = notes
    ∧ studyItems.createdAt item = clock w (S (reads w)) / 1000
    ∧ (clock w (reads w) / 1000 = clock w (S (reads w)) / 1000 →
       studyItems.nextReview item = studyItems.createdAt item + 3600).
Proof.
  intros Hfault Hfresh.
  exists (created_item userId type content level tags notes w),
    (store (rows w ++ [created_item userId type content level tags notes w])
           (tick (tick (draw w)))).
  assert ((clock w (reads w) + 1 * 60 * 60 * 1000) / 1000
          = clock w (reads w) / 1000 + 3600) as Hnext.
  { replace (clock w (reads w) + 1 * 60 * 60 * 1000)
      with (clock w (reads w) + 3600 * 1000) by lia.
    by rewrite Z.div_add. }
  split; [by apply create_study_item_ok|].
  split; [done|]. split; [done|]. split; [exact Hnext|].
  repeat (split; [done|]).
  intros Hsame. simpl. by rewrite Hnext, Hsame.
Qed.
End Create.

Lemma create_study_item_weak_one_hour_witness :
  ∃ (item : StudyItem) (w' : World),
    create_study_item "alice" "vocab" "Merci" Level.hard (Some ["polite"]) (Some "n")
      sample.world
    = (Return (Created (studyItems.id item)), w')
    ∧ studyItems.recallStrength item = weak
    ∧ studyItems.nextReview item = 1700003600.
Proof.
  destruct (create_study_item_weak_one_hour "alice" "vocab" "Merci" Level.hard
              (Some ["polite"]) (Some "n") sample.world)
    as (item & w' & Hrun & _ & Hweak & Hnext & _).
  - reflexivity.
  - apply (bool_decide_unpack _). vm_compute. exact I.
  - exists item, w'. split; [exact Hrun|]. split; [exact Hweak|]. exact Hnext.
Defined.

(** ** update_study_performance *)

Section Update.
Variables (id userId : string) (recallStrength : RecallStrength).

Lemma and_id_userId (r : StudyItem) :
  sql.and [sql.eq studyItems.id id; sql.eq studyItems.userId userId] r = true
  ↔ matched id userId r.
Proof.
  unfold sql.and, sql.eq, matched. simpl.
  rewrite andb_true_r, andb_true_iff, !bool_decide_eq_true. done.
Qed.

Lemma update_study_performance_ok (w : World) :
  fault w = None →
  update_study_performance id userId recallStrength w
  = (Return Success,
     store ((λ r, if sql.and [sql.eq studyItems.id id; sql.eq studyItems.userId userId] r
                  then studyItems.assign (performance recallStrength w) r else r)
              <$> rows w)
           (tick (tick (tick w)))).
Proof.
  intros Hfault.
  unfold update_study_performance, try_catch, bind, calculateNextReview,
    Date_now, sql.update, sql.statement, ret. simpl.
  by rewrite Hfault.
Qed.

Lemma update_study_performance_fault (w : World) (error : string) :
  fault w = Some error →
  update_study_performance id userId recallStrength w
  = (Return (Failure error), tick (tick (tick w))).
Proof.
  intros Hfault.
  unfold update_study_performance, try_catch, bind, calculateNextReview,
    Date_now, sql.update, sql.statement, ret. simpl.
  by rewrite Hfault.
Qed.

(** Position by position, the table after the update. *)
Lemma update_study_performance_lookup (w : World) (i : nat) :
  fault w = None →
  rows (snd (update_study_performance id userId recallStrength w)) !! i
  = (λ r, if decide (matched id userId r)
          then studyItems.assign (performance recallStrength w) r else r)
      <$> rows w !! i.
Proof.
  intros Hfault. rewrite update_study_performance_ok by done.
  unfold snd. rewrite rows_store, list_lookup_fmap.
  destruct (rows w !! i) as [r|]; [|done]. unfold fmap, option_fmap, option_map.
  f_equal. destruct (decide (matched id userId r)) as [Hm|Hm].
  - apply and_id_userId in Hm. by rewrite Hm.
  - destruct (sql.and _ r) eqn:Hc; [|done]. by apply and_id_userId in Hc.
Qed.

(** C7.  Whenever the database raises no failure, the tool answers
    [{success: true}], whether or not a row has this [id] and [userId];
    when none has, the table is left as it was, and the answer is the
    same. *)
Theorem update_study_performance_success_without_match (w : World) :
  fault w = None →
  fst (update_study_performance id userId recallStrength w) = Return Success
  ∧ ((∀ r, r ∈ rows w → ¬ matched id userId r) →
     rows (snd (update_study_performance id userId recallStrength w)) = rows w).
Proof.
  intros Hfault. rewrite update_study_performance_ok by done.
  unfold fst, snd. rewrite rows_store.
  split; [done|]. intros Hnone.
  induction (rows w) as [|r l IH]; [done|]. rewrite fmap_cons. f_equal.
  - destruct (sql.and _ r) eqn:Hc; [|done].
    apply and_id_userId in Hc. destruct (Hnone r); [left|done].
  - apply IH. intros r' Hr'. apply Hnone. by right.
Qed.
End Update.

Lemma update_study_performance_success_without_match_witness :
  fst (update_study_performance "no-such-id" "alice" strong sample.world) = Return Success
  ∧ rows (snd (update_study_performance "no-such-id" "alice" strong sample.world))
    = rows sample.world.
Proof.
  destruct (update_study_performance_success_without_match
              "no-such-id" "alice" strong sample.world) as [Hok Hsame].
  - reflexivity.
  - split; [exact Hok|]. apply Hsame. intros r Hr [Hid _]. revert Hid.
    vm_compute in Hr.
    repeat (apply elem_of_cons in Hr as [->|Hr]; [discriminate|]).
    by apply elem_of_nil in Hr.
Defined.

(** C6.  A row that has the given [id] and [userId] is rewritten in place by
    an update with [strong]: [nextReview] becomes the second of the update
    plus 72 hours, [lastReviewed] and [updatedAt] the second of the update,
    [recallStrength] the supplied strength; [id], [userId], [type],
    [content], [level], [tags], [notes] and [createdAt] keep their values.
    The tool reads the clock three times, for the scheduler, for
    [lastReviewed] and for [updatedAt] in this order; each column is given
    with its reading, and with the one second [T] when all three fall in it. *)
Theorem update_study_performance_strong_frame (id userId : string) (w : World)
    (i : nat) (r : StudyItem) :
  fault w = None →
  rows w !! i = Some r →
  studyItems.id r = id →
  studyItems.userId r = userId →
  ∃ r' : StudyItem,
    rows (snd (update_study_performance id userId strong w)) !! i = Some r'
    ∧ studyItems.nextReview r' = clock w (reads w) / 1000 + 72 * 3600
    ∧ studyItems.lastReviewed r' = Some (clock w (S (reads w)) / 1000)
    ∧ studyItems.updatedAt r' = clock w (S (S (reads w))) / 1000
    ∧ studyItems.recallStrength r' = strong
    ∧ studyItems.id r' = studyItems.id r
    ∧ studyItems.userId r' = studyItems.userId r
    ∧ studyItems.type r' = studyItems.type r
    ∧ studyItems.content r' = studyItems.content r
    ∧ studyItems.level r' = studyItems.level r
    ∧ studyItems.tags r' = studyItems.tags r
    ∧ studyItems.notes r' = studyItems.notes r
    ∧ studyItems.createdAt r' = studyItems.createdAt r
    ∧ (∀ T : Z,
         clock w (reads w) / 1000 = T →
         clock w (S (reads w)) / 1000 = T →
         clock w (S (S (reads w))) / 1000 = T →
         studyItems.nextReview r' = T + 72 * 3600
         ∧ studyItems.lastReviewed r' = Some T
         ∧ studyItems.updatedAt r' = T).
Proof.
  intros Hfault Hr Hid Huser.
  exists (studyItems.assign (performance strong w) r).
  rewrite update_study_performance_lookup, Hr by done. simpl.
  rewrite decide_True by done.
  assert ((clock w (reads w) + 72 * 60 * 60 * 1000) / 1000
          = clock w (reads w) / 1000 + 72 * 3600) as Hnext.
  { replace (clock w (reads w) + 72 * 60 * 60 * 1000)
      with (clock w (reads w) + 72 * 3600 * 1000) by lia.
    by rewrite Z.div_add. }
  split; [done|]. split; [exact Hnext|].
  repeat (split; [done|]).
  intros T H1 H2 H3. rewrite Hnext, H1, H2, H3. done.
Qed.

Lemma update_study_performance_strong_frame_witness :
  ∃ r' : StudyItem,
    rows (snd (update_study_performance "i1" "alice" strong sample.world)) !! 1%nat = Some r'
    ∧ studyItems.nextReview r' = 1700259200
    ∧ studyItems.lastReviewed r' = Some 1700000000
    ∧ studyItems.updatedAt r' = 1700000000
    ∧ studyItems.content r' = "Le subjonctif".
Proof.
  destruct (update_study_performance_strong_frame "i1" "alice" sample.world 1
              sample.subjonctif)
    as (r' & Hr' & _ & _ & _ & _ & _ & _ & _ & Hc & _ & _ & _ & _ & Hsame);
    [reflexivity..|].
  destruct (Hsame 1700000000) as (Hnext & Hlast & Hupd); [reflexivity..|].
  exists r'. split; [exact Hr'|]. split; [exact Hnext|]. split; [exact Hlast|].
  split; [exact Hupd|exact Hc].
Defined.

(** ** get_items_for_review *)

Lemma review_conditions_due (userId : string) (recallStrength : option RecallStrength)
    (threshold : JSNum) (item : StudyItem) :
  sql.and (review_conditions userId recallStrength threshold) item
  ↔ due_for userId recallStrength threshold item.
Proof.
  unfold review_conditions, due_for, sql.and, sql.eq, sql.lte.
  rewrite Is_true_true.
  destruct recallStrength as [s|], threshold as [t|]; simpl;
    rewrite ?andb_true_r, ?andb_false_r, ?andb_true_iff, ?bool_decide_eq_true;
    tauto || (split; [done|tauto]).
Qed.

(** [due_for], spelled out. *)
Lemma due_for_spelled (userId : string) (recallStrength : option RecallStrength)
    (threshold : JSNum) (item : StudyItem) :
  due_for userId recallStrength threshold item
  ↔ studyItems.userId item = userId
    ∧ (∃ t, threshold = Some t ∧ studyItems.nextReview item ≤ t)
    ∧ (∀ s, recallStrength = Some s → studyItems.recallStrength item = s).
Proof.
  unfold due_for. destruct threshold as [t|], recallStrength as [s|]; split.
  all: try (intros (? & ? & ?); split; [done|]; split; [by exists t|]; by intros ? [= <-]).
  all: try (intros (? & (? & [= <-] & ?) & Hs); split; [done|]; split; [done|];
            by (apply Hs || done)).
  all: try by intros (_ & [] & _).
  all: by intros (_ & (? & [=] & _) & _).
Qed.

Lemma review_conditions_owned (userId : string) (recallStrength : option RecallStrength)
    (threshold : JSNum) (r : StudyItem) :
  sql.and (review_conditions userId recallStrength threshold) r →
  studyItems.userId r = userId.
Proof. rewrite review_conditions_due. by intros [? _]. Qed.

Lemma due_threshold_cases (Date_parse : string → JSNum) (now : Z)
    (dueBefore : option string) :
  due_threshold Date_parse now dueBefore
  = match dueBefore with
    | Some d => if decide (d = "") then Some now else floor_div_1000 (Date_parse d)
    | None => Some now
    end.
Proof.
  unfold due_threshold, truthy. destruct dueBefore as [d|]; [|done].
  destruct (decide (d = "")) as [->|Hd]; [done|].
  by rewrite bool_decide_eq_false_2.
Qed.

Section Review.
Variable Date_parse : string → JSNum.
Variables (userId : string) (recallStrength : option RecallStrength).

Lemma get_items_for_review_ok (dueBefore : option string) (w : World) :
  fault w = None →
  ∃ results : list StudyItem,
    get_items_for_review Date_parse userId recallStrength dueBefore w
    = (Return (Items results), tick w)
    ∧ results ≡ₚ
        filter (due_for userId recallStrength
                  (due_threshold Date_parse (clock w (reads w) / 1000) dueBefore))
               (rows w)
    ∧ StronglySorted (sql.precedes (sql.asc studyItems.nextReview)) results.
Proof.
  intros Hfault.
  set (threshold := due_threshold Date_parse (clock w (reads w) / 1000) dueBefore).
  destruct (select_orderBy_ok
              (sql.and (review_conditions userId recallStrength threshold))
              (sql.asc studyItems.nextReview) (tick w) Hfault)
    as (results & Hrun & Hperm & Hsorted).
  exists results. split; [|split; [|done]].
  - unfold get_items_for_review, try_catch, bind, Date_now, ret.
    fold threshold. by rewrite Hrun.
  - rewrite Hperm. simpl. apply reflexive_eq, list_filter_iff.
    intros r. apply review_conditions_due.
Qed.

Lemma get_items_for_review_fault (dueBefore : option string) (w : World)
    (error : string) :
  fault w = Some error →
  get_items_for_review Date_parse userId recallStrength dueBefore w
  = (Return (Failure error), tick w).
Proof.
  intros Hfault.
  unfold get_items_for_review, try_catch, bind, Date_now, ret, sql.select_orderBy.
  by rewrite statement_fault with (error := error).
Qed.
End Review.

(** C3, as amended.  When the database raises no failure, the tool returns
    exactly the caller's rows whose [nextReview] is at or before the
    threshold (and whose recall strength is the requested one, when one is
    requested), each once per stored row, in ascending order of
    [nextReview].  The threshold is the current second when [dueBefore] is
    absent or the empty string, and [dueBefore] parsed to seconds otherwise. *)
Theorem get_items_for_review_due_set (Date_parse : string → JSNum) (userId : string)
    (recallStrength : option RecallStrength) (dueBefore : option string) (w : World) :
  fault w = None →
  let now := clock w (reads w) / 1000 in
  let threshold :=
    match dueBefore with
    | Some d => if decide (d = "") then Some now else floor_div_1000 (Date_parse d)
    | None => Some now
    end in
  ∃ results : list StudyItem,
    fst (get_items_for_review Date_parse userId recallStrength dueBefore w)
    = Return (Items results)
    ∧ results ≡ₚ filter (due_for userId recallStrength threshold) (rows w)
    ∧ (∀ item, item ∈ results ↔
         item ∈ rows w
         ∧ studyItems.userId item = userId
         ∧ (∃ t, threshold = Some t ∧ studyItems.nextReview item ≤ t)
         ∧ (∀ s, recallStrength = Some s → studyItems.recallStrength item = s))
    ∧ StronglySorted (λ x y, studyItems.nextReview x ≤ studyItems.nextReview y) results.
Proof.
  intros Hfault now threshold.
  destruct (get_items_for_review_ok Date_parse userId recallStrength dueBefore w Hfault)
    as (results & Hrun & Hperm & Hsorted).
  rewrite due_threshold_cases in Hperm. fold now threshold in Hperm.
  exists results. rewrite Hrun. split; [done|]. split; [done|]. split; [|done].
  intros item. rewrite Hperm, list_elem_of_filter, due_for_spelled. tauto.
Qed.

Lemma get_items_for_review_due_set_witness :
  ∃ results : list StudyItem,
    fst (get_items_for_review host.Date_parse "alice" None
           (Some "2023-11-15T00:00:00.000Z") sample.world)
    = Return (Items results)
    ∧ ∀ item, item ∈ results ↔
        item ∈ rows sample.world
        ∧ studyItems.userId item = "alice"
        ∧ (∃ t, Some 1700006400 = Some t ∧ studyItems.nextReview item ≤ t)
        ∧ (∀ s, None = Some s → studyItems.recallStrength item = s).
Proof.
  destruct (get_items_for_review_due_set host.Date_parse "alice" None
              (Some "2023-11-15T00:00:00.000Z") sample.world)
    as (results & Hrun & _ & Hmem & _); [reflexivity|].
  exists results. split; [exact Hrun|exact Hmem].
Defined.

(** C3 as stated fails for [dueBefore = ""]: the empty string is supplied
    and parses to no timestamp, yet the tool falls back to the current time
    and returns the item due now. *)
Lemma get_items_for_review_empty_dueBefore_is_now :
  host.Date_parse "" = None
  ∧ fst (get_items_for_review host.Date_parse "alice" None (Some "") sample.world)
    = Return (Items [sample.bonjour])
  ∧ filter (due_for "alice" None (stated_threshold host.Date_parse 1700000000 (Some "")))
      (rows sample.world) = [].
Proof. by vm_compute. Qed.

(** C4, as amended.  A [dueBefore] that does not parse raises nothing and is
    not answered with an error: the empty string counts as absent, any other
    such string gives a [NaN] threshold at which no row is selected, and the
    tool returns the resulting list.  The error payload is returned exactly
    when the database fails; in either case the tool returns a payload. *)
Theorem get_items_for_review_malformed_dueBefore (Date_parse : string → JSNum)
    (userId : string) (recallStrength : option RecallStrength) (d : string) (w : World) :
  Date_parse d = None →
  let now := clock w (reads w) / 1000 in
  let answer := fst (get_items_for_review Date_parse userId recallStrength (Some d) w) in
  (∀ error, fault w = Some error → answer = Return (Failure error))
  ∧ (fault w = None →
     ∃ results : list StudyItem,
       answer = Return (Items results)
       ∧ (d = "" → results ≡ₚ filter (due_for userId recallStrength (Some now)) (rows w))
       ∧ (d ≠ "" → results = [])).
Proof.
  intros Hnan now answer. subst answer. split.
  - intros error Hfault. by rewrite get_items_for_review_fault with (error := error).
  - intros Hfault.
    destruct (get_items_for_review_ok Date_parse userId recallStrength (Some d) w Hfault)
      as (results & Hrun & Hperm & _).
    rewrite due_threshold_cases in Hperm. fold now in Hperm.
    exists results. rewrite Hrun. split; [done|].
    destruct (decide (d = "")) as [Hd|Hd].
    + split; [done|]. by intros [].
    + split; [by intros ?|]. intros _.
      rewrite Hnan in Hperm. apply Permutation_nil_r. rewrite Hperm.
      apply reflexive_eq, filter_none. by intros r (_ & [] & _).
Qed.

Lemma get_items_for_review_malformed_dueBefore_witness :
  host.Date_parse "next week" = None
  ∧ fst (get_items_for_review host.Date_parse "alice" None (Some "next week") sample.world)
    = Return (Items [])
  ∧ fst (get_items_for_review host.Date_parse "alice" None (Some "next week") sample.broken)
    = Return (Failure "D1_ERROR: no such table: study_items").
Proof.
  split; [reflexivity|].
  destruct (get_items_for_review_malformed_dueBefore host.Date_parse "alice" None
              "next week" sample.world) as [_ Hok]; [reflexivity|].
  destruct (get_items_for_review_malformed_dueBefore host.Date_parse "alice" None
              "next week" sample.broken) as [Hbroken _]; [reflexivity|].
  split.
  - destruct Hok as (results & Hrun & _ & Hempty); [reflexivity|].
    rewrite Hrun, Hempty; done.
  - by apply Hbroken.
Defined.

(** C4 as stated fails already for the empty string, which no date parser
    accepts: the tool answers with the items due now, not with an error. *)
Lemma get_items_for_review_unparseable_dueBefore_lists :
  host.Date_parse "" = None
  ∧ fst (get_items_for_review host.Date_parse "bob" (Some medium) (Some "") sample.world)
    = Return (Items [sample.hola]).
Proof. by vm_compute. Qed.

(** ** search_study_items *)

Lemma some_tag_included_shares (tags : list string) (item : StudyItem) :
  some_tag_included tags item ↔ shares_a_tag tags item.
Proof.
  unfold some_tag_included, shares_a_tag. rewrite Is_true_true, existsb_exists.
  destruct (studyItems.tags item) as [stored|].
  - rewrite Exists_exists. split.
    + intros (tag & Hin & Htag). rewrite orb_false_r in Htag.
      exists tag. apply bool_decide_eq_true in Htag. by rewrite list_elem_of_In.
    + intros (tag & Hin & Hstored). exists tag.
      rewrite <- list_elem_of_In. split; [done|].
      by rewrite orb_false_r, bool_decide_eq_true.
  - split; [by intros (? & _ & ?)|done].
Qed.

(** [shares_a_tag], spelled out. *)
Lemma shares_a_tag_spelled (tags : list string) (item : StudyItem) :
  shares_a_tag tags item
  ↔ ∃ tag stored, tag ∈ tags ∧ studyItems.tags item = Some stored ∧ tag ∈ stored.
Proof.
  unfold shares_a_tag. destruct (studyItems.tags item) as [stored|].
  - rewrite Exists_exists. split.
    + intros (tag & ? & ?). by exists tag, stored.
    + intros (tag & ? & ? & [= <-] & ?). by exists tag.
  - split; [done|]. by intros (? & ? & _ & [=] & _).
Qed.

Lemma search_conditions_hit (userId : string) (type : option string)
    (level : option Level.t) (item : StudyItem) :
  sql.and (search_conditions userId type level) item
  ↔ studyItems.userId item = userId
    ∧ match type with
      | Some t => t = "" ∨ studyItems.type item = t
      | None => True
      end
    ∧ match level with
      | Some l => studyItems.level item = l
      | None => True
      end.
Proof.
  unfold search_conditions, truthy, sql.and, sql.eq. rewrite Is_true_true.
  destruct type as [t|]; [destruct (decide (t = "")) as [->|Ht]|];
    rewrite ?bool_decide_eq_true_2, ?bool_decide_eq_false_2 by done;
    destruct level as [l|]; simpl;
    rewrite ?andb_true_r, ?andb_true_iff, ?bool_decide_eq_true; tauto.
Qed.

Lemma search_conditions_scoped (userId : string) (type : option string)
    (level : option Level.t) (r : StudyItem) :
  sql.and (search_conditions userId type level) r → studyItems.userId r = userId.
Proof. rewrite search_conditions_hit. by intros [? _]. Qed.

Section Search.
Variable toLowerCase : string → string.
Variables (userId : string) (content : option string) (tags : option (list string)).
Variables (type : option string) (level : option Level.t).

Lemma search_study_items_ok (w : World) :
  fault w = None →
  ∃ results : list StudyItem,
    search_study_items toLowerCase userId content tags type level w
    = (Return (Items results), w)
    ∧ results ≡ₚ filter (search_hit toLowerCase userId content tags type level) (rows w)
    ∧ StronglySorted (sql.precedes (sql.desc studyItems.updatedAt)) results.
Proof.
  intros Hfault.
  destruct (select_orderBy_ok (sql.and (search_conditions userId type level))
              (sql.desc studyItems.updatedAt) w Hfault)
    as (selected & Hrun & Hperm & Hsorted).
  unfold search_study_items, try_catch, bind, ret. rewrite Hrun.
  unfold search_hit, truthy, content_matches.
  destruct content as [c|]; [destruct (decide (c = "")) as [->|Hc]|];
    rewrite ?bool_decide_eq_true_2, ?bool_decide_eq_false_2 by done;
    destruct tags as [[|tag more]|];
    (eexists; split; [reflexivity|]; split;
     [|by repeat apply StronglySorted_filter]);
    rewrite Hperm, ?list_filter_filter; apply reflexive_eq, list_filter_iff;
    intros item; rewrite ?some_tag_included_shares, search_conditions_hit;
    intuition (discriminate || done).
Qed.

Lemma search_study_items_fault (w : World) (error : string) :
  fault w = Some error →
  search_study_items toLowerCase userId content tags type level w
  = (Return (Failure error), w).
Proof.
  intros Hfault.
  unfold search_study_items, try_catch, bind, ret, sql.select_orderBy.
  by rewrite statement_fault with (error := error).
Qed.
End Search.

(** C8, as amended.  When the database raises no failure, a search returns
    exactly the caller's rows that pass every supplied filter, each once per
    stored row, most recently updated first.  [level], and [type] when it is
    not the empty string, must be equal to the row's; [content], when it is
    not the empty string, must occur in the row's content after both are
    lower-cased; [tags], when not empty, must share at least one tag with the
    row's.  An empty [type] or [content] filters nothing. *)
Theorem search_study_items_filters (toLowerCase : string → string) (userId : string)
    (content : option string) (tags : option (list string)) (type : option string)
    (level : option Level.t) (w : World) :
  fault w = None →
  ∃ results : list StudyItem,
    fst (search_study_items toLowerCase userId content tags type level w)
    = Return (Items results)
    ∧ results ≡ₚ filter (search_hit toLowerCase userId content tags type level) (rows w)
    ∧ (∀ item, item ∈ results ↔
         item ∈ rows w
         ∧ studyItems.userId item = userId
         ∧ (∀ t, type = Some t → t ≠ "" → studyItems.type item = t)
         ∧ (∀ l, level = Some l → studyItems.level item = l)
         ∧ (∀ c, content = Some c → c ≠ "" →
              ∃ pre post,
                toLowerCase (studyItems.content item) = pre +:+ toLowerCase c +:+ post)
         ∧ (∀ ts, tags = Some ts → ts ≠ [] →
              ∃ tag stored,
                tag ∈ ts ∧ studyItems.tags item = Some stored ∧ tag ∈ stored))
    ∧ StronglySorted (λ x y, studyItems.updatedAt y ≤ studyItems.updatedAt x) results.
Proof.
  intros Hfault.
  destruct (search_study_items_ok toLowerCase userId content tags type level w Hfault)
    as (results & Hrun & Hperm & Hsorted).
  exists results. rewrite Hrun. split; [done|]. split; [done|]. split; [|done].
  intros item. rewrite Hperm, list_elem_of_filter. unfold search_hit.
  split.
  - intros ((Hu & Ht & Hl & Hc & Hts) & Hin). repeat split; [done..| | | |].
    + intros t -> Hne. by destruct Ht.
    + by intros l ->.
    + intros c -> Hne. destruct Hc as [|Hc]; [done|].
      by apply includes_substring, Is_true_true.
    + intros ts -> Hne. destruct Hts as [|Hts]; [done|].
      by apply shares_a_tag_spelled.
  - intros (Hin & Hu & Ht & Hl & Hc & Hts). split; [|done]. repeat split; [done|..].
    + destruct type as [t|]; [|done].
      destruct (decide (t = "")); [by left|right; by apply Ht].
    + destruct level as [l|]; [by apply Hl|done].
    + destruct content as [c|]; [|done].
      destruct (decide (c = "")); [by left|right].
      by apply Is_true_true, includes_substring, Hc.
    + destruct tags as [ts|]; [|done].
      destruct (decide (ts = [])); [by left|right].
      by apply shares_a_tag_spelled, Hts.
Qed.

Lemma search_study_items_filters_witness :
  ∃ results : list StudyItem,
    fst (search_study_items host.toLowerCase "alice" (Some "JOUR") (Some ["x"])
           (Some "vocab") (Some Level.A1) sample.world)
    = Return (Items results)
    ∧ results ≡ₚ
        filter (search_hit host.toLowerCase "alice" (Some "JOUR") (Some ["x"])
                  (Some "vocab") (Some Level.A1))
               (rows sample.world).
Proof.
  destruct (search_study_items_filters host.toLowerCase "alice" (Some "JOUR")
              (Some ["x"]) (Some "vocab") (Some Level.A1) sample.world)
    as (results & Hrun & Hperm & _); [reflexivity|].
  exists results. split; [exact Hrun|exact Hperm].
Defined.

(** C8 as stated fails for [type = ""]: no stored type is the empty string,
    yet both of the caller's rows are returned. *)
Lemma search_study_items_empty_type_filters_nothing :
  fst (search_study_items host.toLowerCase "alice" None None (Some "") None sample.world)
  = Return (Items [sample.subjonctif; sample.bonjour])
  ∧ studyItems.type sample.subjonctif ≠ ""
  ∧ studyItems.type sample.bonjour ≠ "".
Proof. by vm_compute. Qed.

(** The example of the specification: [tags = ["x"]] keeps the row tagged
    [["x"; "y"]] and drops the one tagged [["y"; "z"]]; the content test
    ignores case. *)
Example search_study_items_tags_x :
  fst (search_study_items host.toLowerCase "alice" None (Some ["x"]) None None sample.world)
  = Return (Items [sample.bonjour])
  ∧ fst (search_study_items host.toLowerCase "alice" (Some "SUBJ") None None None
           sample.world)
    = Return (Items [sample.subjonctif]).
Proof. by vm_compute. Qed.

(** C10.  A row whose [tags] is NULL fails the tag test of every non-empty
    tag list, so a search with such a list leaves the row out and still
    returns its list of rows. *)
Theorem search_study_items_null_tags_excluded (toLowerCase : string → string)
    (userId : string) (content : option string) (tag : string) (more : list string)
    (type : option string) (level : option Level.t) (w : World) (item : StudyItem) :
  studyItems.tags item = None →
  some_tag_included (tag :: more) item = false
  ∧ (fault w = None →
     ∃ results : list StudyItem,
       fst (search_study_items toLowerCase userId content (Some (tag :: more)) type level w)
       = Return (Items results)
       ∧ item ∉ results).
Proof.
  intros Hnull. split.
  - unfold some_tag_included. rewrite Hnull. clear.
    induction (tag :: more) as [|t l IH]; [done|]. simpl. exact IH.
  - intros Hfault.
    destruct (search_study_items_ok toLowerCase userId content (Some (tag :: more))
                type level w Hfault) as (results & Hrun & Hperm & _).
    exists results. rewrite Hrun. split; [done|].
    rewrite Hperm, list_elem_of_filter. intros [(_ & _ & _ & _ & [Hnil|Hshare]) _];
      [done|].
    unfold shares_a_tag in Hshare. by rewrite Hnull in Hshare.
Qed.

Lemma search_study_items_null_tags_excluded_witness :
  some_tag_included ["x"; "y"] sample.hola = false
  ∧ ∃ results : list StudyItem,
      fst (search_study_items host.toLowerCase "bob" None (Some ["x"; "y"]) None None
             sample.world)
      = Return (Items results)
      ∧ sample.hola ∉ results.
Proof.
  destruct (search_study_items_null_tags_excluded host.toLowerCase "bob" None "x" ["y"]
              None None sample.world sample.hola) as [Hfalse Hrun]; [reflexivity|].
  split; [exact Hfalse|]. apply Hrun. reflexivity.
Defined.

(** ** Isolation between users *)

Section Isolation.
Variable Date_parse : string → JSNum.
Variable toLowerCase : string → string.

Lemma get_study_types_rows (userId : string) (w : World) :
  rows (snd (get_study_types userId w)) = rows w.
Proof.
  unfold get_study_types, try_catch, bind, ret, sql.selectDistinct_type, sql.statement.
  by destruct (fault w).
Qed.

Lemma get_learning_stats_rows (userId : string) (w : World) :
  rows (snd (get_learning_stats userId w)) = rows w.
Proof.
  unfold get_learning_stats, try_catch, bind, ret, sql.select, sql.statement, Date_now.
  by destruct (fault w).
Qed.

Lemma search_study_items_rows userId content tags type level (w : World) :
  rows (snd (search_study_items toLowerCase userId content tags type level w)) = rows w.
Proof.
  destruct (fault w) as [error|] eqn:Hfault.
  - by rewrite search_study_items_fault with (error := error).
  - by destruct (search_study_items_ok toLowerCase userId content tags type level w Hfault)
      as (? & -> & _).
Qed.

Lemma get_items_for_review_rows userId recallStrength dueBefore (w : World) :
  rows (snd (get_items_for_review Date_parse userId recallStrength dueBefore w)) = rows w.
Proof.
  destruct (fault w) as [error|] eqn:Hfault.
  - by rewrite get_items_for_review_fault with (error := error).
  - by destruct (get_items_for_review_ok Date_parse userId recallStrength dueBefore w Hfault)
      as (? & -> & _).
Qed.

(** No tool removes, moves or rewrites a row of another user. *)
Lemma handle_keeps_foreign_rows (c : ToolCall) (w : World) (i : nat) (r : StudyItem) :
  rows w !! i = Some r →
  studyItems.userId r ≠ caller c →
  rows (snd (handle Date_parse toLowerCase c w)) !! i = Some r.
Proof.
  intros Hr Hforeign. destruct c; cbn [handle caller] in *.
  - destruct (fault w) as [error|] eqn:Hfault.
    { by rewrite create_study_item_fault with (error := error). }
    destruct (decide (fresh_id w)).
    + rewrite create_study_item_ok by done. unfold snd. rewrite rows_store.
      by apply lookup_app_l_Some.
    + by rewrite create_study_item_duplicate.
  - destruct (fault w) as [error|] eqn:Hfault.
    { by rewrite update_study_performance_fault with (error := error). }
    rewrite update_study_performance_lookup, Hr by done. simpl.
    rewrite decide_False; [done|]. by intros [_ ?].
  - by rewrite search_study_items_rows.
  - by rewrite get_items_for_review_rows.
  - by rewrite get_study_types_rows.
  - by rewrite get_learning_stats_rows.
Qed.

(** A row that a tool adds or rewrites belongs to the caller. *)
Lemma handle_writes_own_rows (c : ToolCall) (w : World) (i : nat) (r' : StudyItem) :
  rows (snd (handle Date_parse toLowerCase c w)) !! i = Some r' →
  rows w !! i = Some r' ∨ studyItems.userId r' = caller c.
Proof.
  intros Hr'. destruct c; cbn [handle caller] in *.
  - destruct (fault w) as [error|] eqn:Hfault.
    { rewrite create_study_item_fault with (error := error) in Hr' by done. by left. }
    destruct (decide (fresh_id w)).
    + rewrite create_study_item_ok in Hr' by done. unfold snd in Hr'.
      rewrite rows_store in Hr'.
      apply lookup_app_Some in Hr' as [?|[_ Hnew]]; [by left|].
      right. by apply list_lookup_singleton_Some in Hnew as [_ <-].
    + rewrite create_study_item_duplicate in Hr' by done. by left.
  - destruct (fault w) as [error|] eqn:Hfault.
    { rewrite update_study_performance_fault with (error := error) in Hr' by done.
      by left. }
    rewrite update_study_performance_lookup in Hr' by done.
    destruct (rows w !! i) as [r|]; [|done]. simpl in Hr'.
    destruct (decide (matched id userId r)) as [[_ Huser]|_];
      injection Hr' as <-; [by right|by left].
  - left. by rewrite search_study_items_rows in Hr'.
  - left. by rewrite get_items_for_review_rows in Hr'.
  - left. by rewrite get_study_types_rows in Hr'.
  - left. by rewrite get_learning_stats_rows in Hr'.
Qed.

(** What a tool answers depends on the table only through the caller's
    rows and, for a creation, through whether the identifier it draws is
    already in use. *)
Lemma handle_reads_own_rows (c : ToolCall) (w1 w2 : World) :
  same_surroundings w1 w2 →
  owned_by (caller c) (rows w1) = owned_by (caller c) (rows w2) →
  (is_create c → (fresh_id w1 ↔ fresh_id w2)) →
  fst (handle Date_parse toLowerCase c w1) = fst (handle Date_parse toLowerCase c w2).
Proof.
  destruct w1 as [clock1 reads1 uuids1 drawn1 rows1 fault1].
  destruct w2 as [clock2 reads2 uuids2 drawn2 rows2 fault2].
  unfold same_surroundings. cbn [clock reads uuids drawn fault rows].
  intros (<- & <- & <- & <- & <-) Hown Hfresh. destruct c; cbn [handle caller] in *.
  - specialize (Hfresh I). destruct fault1 as [error|].
    + by rewrite !create_study_item_fault with (error := error).
    + destruct (decide (fresh_id (mkWorld clock1 reads1 uuids1 drawn1 rows1 None)))
        as [Hf1|Hf1].
      * rewrite !create_study_item_ok; try done. by apply Hfresh.
      * rewrite !create_study_item_duplicate; try done. by rewrite <- Hfresh.
  - destruct fault1 as [error|].
    + by rewrite !update_study_performance_fault with (error := error).
    + by rewrite !update_study_performance_ok.
  - unfold search_study_items, try_catch, bind, ret, sql.select_orderBy, sql.statement.
    cbn [fault rows]. destruct fault1; [done|].
    rewrite (filter_owned _ userId rows1), (filter_owned _ userId rows2), Hown;
      [done|apply search_conditions_scoped..].
  - unfold get_items_for_review, try_catch, bind, ret, Date_now, sql.select_orderBy,
      sql.statement.
    cbn [fault rows tick clock reads]. destruct fault1; [done|].
    rewrite (filter_owned _ userId rows1), (filter_owned _ userId rows2), Hown;
      [done|apply review_conditions_owned..].
  - unfold get_study_types, try_catch, bind, ret, sql.selectDistinct_type, sql.statement.
    cbn [fault rows]. destruct fault1; [done|].
    rewrite (filter_owned _ userId rows1), (filter_owned _ userId rows2), Hown;
      [done|apply eq_userId_owned..].
  - unfold get_learning_stats, try_catch, bind, ret, Date_now, sql.select, sql.statement.
    cbn [fault rows]. destruct fault1; [done|].
    rewrite (filter_owned _ userId rows1), (filter_owned _ userId rows2), Hown;
      [done|apply eq_userId_owned..].
Qed.
End Isolation.

(** The uniform error contract: a tool always answers with a payload. *)
Lemma handle_always_answers (Date_parse : string → JSNum)
    (toLowerCase : string → string) (c : ToolCall) (w : World) :
  ∃ payload : Payload, fst (handle Date_parse toLowerCase c w) = Return payload.
Proof.
  destruct c; cbn [handle]; destruct (fault w) as [error|] eqn:Hfault.
  - eexists. by rewrite create_study_item_fault with (error := error).
  - destruct (decide (fresh_id w)); eexists.
    + by rewrite create_study_item_ok.
    + by rewrite create_study_item_duplicate.
  - eexists. by rewrite update_study_performance_fault with (error := error).
  - eexists. by rewrite update_study_performance_ok.
  - eexists. by rewrite search_study_items_fault with (error := error).
  - destruct (search_study_items_ok toLowerCase userId content tags type level w Hfault)
      as (results & -> & _). by eexists.
  - eexists. by rewrite get_items_for_review_fault with (error := error).
  - destruct (get_items_for_review_ok Date_parse userId recallStrength dueBefore w Hfault)
      as (results & -> & _). by eexists.
  - eexists. unfold get_study_types, try_catch, bind, ret, sql.selectDistinct_type,
      sql.statement. by rewrite Hfault.
  - eexists. unfold get_study_types, try_catch, bind, ret, sql.selectDistinct_type,
      sql.statement. by rewrite Hfault.
  - eexists. unfold get_learning_stats, try_catch, bind, ret, sql.select, sql.statement,
      Date_now. by rewrite Hfault.
  - eexists. unfold get_learning_stats, try_catch, bind, ret, sql.select, sql.statement,
      Date_now. by rewrite Hfault.
Qed.

(** The statistics of a user without items. *)
Example get_learning_stats_empty :
  fst (get_learning_stats "carol" sample.world)
  = Return (Stats {| total := 0;
                     byRecallStrength := {| n_weak := 0; n_medium := 0; n_strong := 0 |};
                     byLevel := ∅; byType := ∅;
                     dueForReview := 0; reviewedToday := 0 |}).
Proof. reflexivity. Qed.

(** C2, as amended.  For every call [c] of one of the six tools by user
    [caller c]: a row of another user stays where it is, unchanged (in
    particular a row with the [id] given to [update_study_performance] but
    another [userId]); a row that is new or changed after the call belongs
    to the caller; and the answer is the same in any two worlds that hold
    the same rows of the caller, whatever rows of other users they hold.
    Only the answer of [create_study_item] depends on one more thing:
    whether the identifier it draws is already the [id] of a row, of any
    user, because [id] is the primary key of the whole table. *)
Theorem tools_are_scoped_to_the_caller (Date_parse : string → JSNum)
    (toLowerCase : string → string) (c : ToolCall) :
  (∀ (w : World) (i : nat) (r : StudyItem),
     rows w !! i = Some r →
     studyItems.userId r ≠ caller c →
     rows (snd (handle Date_parse toLowerCase c w)) !! i = Some r)
  ∧ (∀ (w : World) (i : nat) (r' : StudyItem),
       rows (snd (handle Date_parse toLowerCase c w)) !! i = Some r' →
       rows w !! i = Some r' ∨ studyItems.userId r' = caller c)
  ∧ (∀ w1 w2 : World,
       same_surroundings w1 w2 →
       owned_by (caller c) (rows w1) = owned_by (caller c) (rows w2) →
       (is_create c → (fresh_id w1 ↔ fresh_id w2)) →
       fst (handle Date_parse toLowerCase c w1) = fst (handle Date_parse toLowerCase c w2)).
Proof.
  split; [|split].
  - apply handle_keeps_foreign_rows.
  - apply handle_writes_own_rows.
  - apply handle_reads_own_rows.
Qed.

Lemma tools_are_scoped_to_the_caller_witness :
  rows (snd (handle host.Date_parse host.toLowerCase
               (call_update_study_performance "i2" "alice" strong) sample.world)) !! 2%nat
  = Some sample.hola
  ∧ fst (handle host.Date_parse host.toLowerCase
           (call_update_study_performance "i2" "alice" strong) sample.world)
    = fst (handle host.Date_parse host.toLowerCase
             (call_update_study_performance "i2" "alice" strong)
             (store [sample.bonjour; sample.subjonctif] sample.world)).
Proof.
  destruct (tools_are_scoped_to_the_caller host.Date_parse host.toLowerCase
              (call_update_study_performance "i2" "alice" strong))
    as (Hkeep & _ & Hread).
  split.
  - apply Hkeep; [reflexivity|]. simpl. discriminate.
  - apply Hread.
    + repeat split.
    + vm_compute. reflexivity.
    + intros [].
Defined.

(** C2 as stated fails for [create_study_item]: two tables with the same rows
    of [alice] and the same surroundings, one of which holds a row of [bob]
    under the identifier drawn next, give [alice] two different answers. *)
Lemma create_study_item_answer_reflects_foreign_id :
  same_surroundings sample.world sample.clashing
  ∧ owned_by "alice" (rows sample.world) = owned_by "alice" (rows sample.clashing)
  ∧ fst (create_study_item "alice" "vocab" "Merci" Level.A1 None None sample.world)
    = Return (Created "uuid-0")
  ∧ fst (create_study_item "alice" "vocab" "Merci" Level.A1 None None sample.clashing)
    = Return (Failure "UNIQUE constraint failed: study_items.id")
  ∧ studyItems.userId sample.clash = "bob".
Proof.
  split; [by repeat split|]. split; [reflexivity|].
  split; [by vm_compute|]. split; [by vm_compute|reflexivity].
Qed.

(** * Further properties of the tools *)

(** ** get_study_types *)

Lemma get_study_types_ok (userId : string) (w : World) :
  fault w = None →
  get_study_types userId w
  = (Return (Types (remove_dups (studyItems.type <$> owned_by userId (rows w)))), w).
Proof.
  intros Hfault.
  unfold get_study_types, try_catch, bind, ret, sql.selectDistinct_type, sql.statement.
  rewrite Hfault. do 5 f_equal. unfold owned_by. apply list_filter_iff.
  intros r. unfold sql.eq. by rewrite bool_decide_spec.
Qed.

(** X1.  Without a database failure, [get_study_types] returns every type
    that occurs among the caller's rows, each exactly once, and nothing
    else; for a user without rows the list is empty. *)
Theorem get_study_types_distinct (userId : string) (w : World) :
  fault w = None →
  ∃ types : list string,
    get_study_types userId w = (Return (Types types), w)
    ∧ NoDup types
    ∧ (∀ t, t ∈ types ↔
         ∃ r, r ∈ rows w ∧ studyItems.userId r = userId ∧ studyItems.type r = t)
    ∧ (owned_by userId (rows w) = [] → types = []).
Proof.
  intros Hfault. eexists. split; [by apply get_study_types_ok|].
  split; [apply NoDup_remove_dups|]. split.
  - intros t. rewrite elem_of_remove_dups, list_elem_of_fmap. unfold owned_by. split.
    + intros (r & -> & Hr). apply list_elem_of_filter in Hr as [? ?]. by exists r.
    + intros (r & ? & ? & <-). exists r. split; [done|]. by apply list_elem_of_filter.
  - by intros ->.
Qed.

Lemma get_study_types_distinct_witness :
  ∃ types : list string,
    get_study_types "alice" sample.world = (Return (Types types), sample.world)
    ∧ NoDup types
    ∧ ("grammar" ∈ types ↔
         ∃ r, r ∈ rows sample.world ∧ studyItems.userId r = "alice"
              ∧ studyItems.type r = "grammar").
Proof.
  destruct (get_study_types_distinct "alice" sample.world)
    as (types & Hrun & Hnodup & Hmem & _); [reflexivity|].
  exists types. split; [exact Hrun|]. split; [exact Hnodup|]. exact (Hmem "grammar").
Defined.

(** ** get_learning_stats *)

Lemma get_learning_stats_ok (userId : string) (w : World) :
  fault w = None →
  get_learning_stats userId w
  = (Return (Stats (learning_stats (owned_by userId (rows w)) (clock w (reads w) / 1000))),
     tick w).
Proof.
  intros Hfault.
  unfold get_learning_stats, try_catch, bind, ret, sql.select, sql.statement, Date_now.
  rewrite Hfault.
  replace (filter (λ r, sql.eq studyItems.userId userId r) (rows w))
    with (owned_by userId (rows w)); [done|].
  unfold owned_by. apply list_filter_iff.
  intros r. unfold sql.eq. by rewrite bool_decide_spec.
Qed.

Lemma count_where_le (P : StudyItem → bool) (l : list StudyItem) :
  (count_where P l ≤ length l)%nat.
Proof. unfold count_where. apply length_filter. Qed.

Lemma count_where_cons (P : StudyItem → bool) (x : StudyItem) (l : list StudyItem) :
  count_where P (x :: l) = ((if P x then 1 else 0) + count_where P l)%nat.
Proof.
  unfold count_where. destruct (P x) eqn:HP.
  - rewrite filter_cons_True by (by apply Is_true_true). reflexivity.
  - rewrite filter_cons_False by (by apply Is_true_false). reflexivity.
Qed.

Lemma count_by_recallStrength (l : list StudyItem) :
  (count_where (sql.eq studyItems.recallStrength weak) l
   + count_where (sql.eq studyItems.recallStrength medium) l
   + count_where (sql.eq studyItems.recallStrength strong) l = length l)%nat.
Proof.
  induction l as [|x l IH]; [done|].
  rewrite !count_where_cons. unfold sql.eq at 1 3 5.
  destruct (studyItems.recallStrength x); simpl; lia.
Qed.

(** X2.  Without a database failure, the statistics count the caller's rows
    only: [total] is their number, the three recall-strength counts add up
    to it, and neither the due count nor the reviewed count exceeds it. *)
Theorem get_learning_stats_counts (userId : string) (w : World) :
  fault w = None →
  ∃ stats : LearningStats,
    fst (get_learning_stats userId w) = Return (Stats stats)
    ∧ total stats = length (owned_by userId (rows w))
    ∧ (n_weak (byRecallStrength stats) + n_medium (byRecallStrength stats)
       + n_strong (byRecallStrength stats) = total stats)%nat
    ∧ (dueForReview stats ≤ total stats)%nat
    ∧ (reviewedToday stats ≤ total stats)%nat.
Proof.
  intros Hfault. eexists. rewrite get_learning_stats_ok by done.
  split; [done|]. cbn [learning_stats total byRecallStrength n_weak n_medium n_strong
                       dueForReview reviewedToday].
  split; [done|]. split; [apply count_by_recallStrength|].
  split; apply count_where_le.
Qed.

Lemma get_learning_stats_counts_witness :
  ∃ stats : LearningStats,
    fst (get_learning_stats "alice" sample.world) = Return (Stats stats)
    ∧ total stats = 2%nat
    ∧ (n_weak (byRecallStrength stats) + n_medium (byRecallStrength stats)
       + n_strong (byRecallStrength stats) = total stats)%nat.
Proof.
  destruct (get_learning_stats_counts "alice" sample.world)
    as (stats & Hrun & Htotal & Hsum & _); [reflexivity|].
  exists stats. split; [exact Hrun|]. split; [exact Htotal|exact Hsum].
Defined.

(** The counting loops: after the loop, a key holds the number of items
    that carry it, on top of what it held before; keys no item carries are
    left as they were. *)
Lemma count_keys_lookup {A} (key : A → string) (l : list A) (m : gmap string nat)
    (k : string) :
  foldl (λ counts item, count_key counts (key item)) m l !! k
  = if decide (length (filter (λ item, key item = k) l) = 0)%nat
    then m !! k
    else Some (default 0 (m !! k) + length (filter (λ item, key item = k) l))%nat.
Proof.
  revert m. induction l as [|x l IH]; intros m; [done|].
  cbn [foldl]. rewrite IH. unfold count_key.
  destruct (decide (key x = k)) as [Hk|Hk].
  - rewrite filter_cons_True by done. rewrite Hk, lookup_insert_eq.
    cbn [length default]. rewrite (decide_False (P := (S _ = 0)%nat)) by lia.
    case_decide as Hn; [by rewrite Hn|]. f_equal. unfold id. lia.
  - rewrite filter_cons_False by done. rewrite lookup_insert_ne by done.
    by case_decide.
Qed.

Lemma Level_to_string_inj (l1 l2 : Level.t) :
  Level.to_string l1 = Level.to_string l2 → l1 = l2.
Proof. by destruct l1, l2. Qed.

(** X3.  Without a database failure, [byLevel] holds, under the name of each
    level that occurs among the caller's rows, the number of those rows; a
    level that does not occur has no entry, and there is no other key. *)
Theorem get_learning_stats_byLevel (userId : string) (w : World) :
  fault w = None →
  ∃ stats : LearningStats,
    fst (get_learning_stats userId w) = Return (Stats stats)
    ∧ (∀ (l : Level.t) (n : nat),
         byLevel stats !! Level.to_string l = Some n ↔
         n = length (filter (λ r, studyItems.level r = l) (owned_by userId (rows w)))
         ∧ (0 < n)%nat)
    ∧ (∀ k, is_Some (byLevel stats !! k) →
         ∃ r, r ∈ rows w ∧ studyItems.userId r = userId
              ∧ k = Level.to_string (studyItems.level r)).
Proof.
  intros Hfault. eexists. rewrite get_learning_stats_ok by done.
  split; [done|]. cbn [learning_stats byLevel]. split.
  - intros l n.
    rewrite (count_keys_lookup (λ item, Level.to_string (studyItems.level item))).
    rewrite lookup_empty. cbn [default].
    replace (filter (λ item, Level.to_string (studyItems.level item) = Level.to_string l)
               (owned_by userId (rows w)))
      with (filter (λ r, studyItems.level r = l) (owned_by userId (rows w))).
    2:{ apply list_filter_iff. intros r. split; [by intros ->|apply Level_to_string_inj]. }
    case_decide as Hn.
    + split; [done|]. intros [-> ?]. lia.
    + split; [intros [= <-]; split; lia|]. intros [-> _]. f_equal.
  - intros k.
    rewrite (count_keys_lookup (λ item, Level.to_string (studyItems.level item))).
    rewrite lookup_empty. case_decide as Hn; [by intros [? [=]]|]. intros _.
    destruct (filter _ (owned_by userId (rows w))) as [|r ?] eqn:Hf; [done|].
    assert (r ∈ filter (λ item, Level.to_string (studyItems.level item) = k)
                  (owned_by userId (rows w))) as Hr by (rewrite Hf; left).
    apply list_elem_of_filter in Hr as [<- Hr].
    apply list_elem_of_filter in Hr as [? ?]. by exists r.
Qed.

Lemma get_learning_stats_byLevel_witness :
  ∃ stats : LearningStats,
    fst (get_learning_stats "alice" sample.world) = Return (Stats stats)
    ∧ (byLevel stats !! "B2" = Some 1%nat ↔
       1%nat = length (filter (λ r, studyItems.level r = Level.B2)
                         (owned_by "alice" (rows sample.world)))
       ∧ (0 < 1)%nat).
Proof.
  destruct (get_learning_stats_byLevel "alice" sample.world)
    as (stats & Hrun & Hlevel & _); [reflexivity|].
  exists stats. split; [exact Hrun|]. exact (Hlevel Level.B2 1%nat).
Defined.

(** X4.  Without a database failure, [byType] holds, under each type that
    occurs among the caller's rows, the number of those rows, and no entry
    for a type that does not occur.  This is for types that are not the
    name of a property inherited from [Object.prototype]. *)
Theorem get_learning_stats_byType (userId : string) (w : World) (t : string) (n : nat) :
  fault w = None →
  t ∉ Object_prototype_names →
  ∃ stats : LearningStats,
    fst (get_learning_stats userId w) = Return (Stats stats)
    ∧ (byType stats !! t = Some n ↔
       n = length (filter (λ r, studyItems.type r = t) (owned_by userId (rows w)))
       ∧ (0 < n)%nat).
Proof.
  intros Hfault _. eexists. rewrite get_learning_stats_ok by done.
  split; [done|]. cbn [learning_stats byType].
  rewrite (count_keys_lookup studyItems.type), lookup_empty. cbn [default].
  case_decide as Hn.
  - split; [done|]. intros [-> ?]. lia.
  - split; [intros [= <-]; split; lia|]. intros [-> _]. f_equal.
Qed.

Lemma get_learning_stats_byType_witness :
  ∃ stats : LearningStats,
    fst (get_learning_stats "alice" sample.world) = Return (Stats stats)
    ∧ (byType stats !! "vocab" = Some 1%nat ↔
       1%nat = length (filter (λ r, studyItems.type r = "vocab")
                         (owned_by "alice" (rows sample.world)))
       ∧ (0 < 1)%nat).
Proof.
  destruct (get_learning_stats_byType "alice" sample.world "vocab" 1)
    as (stats & Hrun & Htype); [reflexivity| |].
  - apply (bool_decide_unpack _). vm_compute. exact I.
  - exists stats. split; [exact Hrun|exact Htype].
Defined.

(** X5.  Called at the same moment on the same table, the statistics agree
    with the listing tools: [dueForReview] is the number of rows that
    [get_items_for_review] returns for the user without further arguments,
    and [total] the number that [search_study_items] returns without
    filters. *)
Theorem get_learning_stats_agrees_with_listings (Date_parse : string → JSNum)
    (toLowerCase : string → string) (userId : string) (w : World) :
  fault w = None →
  ∃ (stats : LearningStats) (due found : list StudyItem),
    fst (get_learning_stats userId w) = Return (Stats stats)
    ∧ fst (get_items_for_review Date_parse userId None None w) = Return (Items due)
    ∧ fst (search_study_items toLowerCase userId None None None None w)
      = Return (Items found)
    ∧ dueForReview stats = length due
    ∧ total stats = length found.
Proof.
  intros Hfault.
  destruct (get_items_for_review_ok Date_parse userId None None w Hfault)
    as (due & Hdue & Hdue_perm & _).
  destruct (search_study_items_ok toLowerCase userId None None None None w Hfault)
    as (found & Hfound & Hfound_perm & _).
  eexists _, due, found. rewrite get_learning_stats_ok, Hdue, Hfound by done.
  split; [done|]. split; [done|]. split; [done|].
  cbn [learning_stats dueForReview total]. split.
  - rewrite Hdue_perm. unfold count_where, owned_by. rewrite list_filter_filter.
    f_equal. apply list_filter_iff. intros r.
    unfold due_for, due_threshold, truthy. rewrite bool_decide_spec. tauto.
  - rewrite Hfound_perm. unfold owned_by. f_equal. apply list_filter_iff.
    intros r. unfold search_hit. tauto.
Qed.

Lemma get_learning_stats_agrees_with_listings_witness :
  ∃ (stats : LearningStats) (due found : list StudyItem),
    fst (get_learning_stats "alice" sample.world) = Return (Stats stats)
    ∧ fst (get_items_for_review host.Date_parse "alice" None None sample.world)
      = Return (Items due)
    ∧ dueForReview stats = length due.
Proof.
  destruct (get_learning_stats_agrees_with_listings host.Date_parse host.toLowerCase
              "alice" sample.world)
    as (stats & due & found & Hstats & Hdue & _ & Hcount & _); [reflexivity|].
  exists stats, due, found. split; [exact Hstats|]. split; [exact Hdue|exact Hcount].
Defined.

(** ** All six tools *)

(** X6.  When the database fails, every tool answers with the database's
    message as [{error, success: false}] and the table is as before. *)
Theorem handle_storage_failure (Date_parse : string → JSNum)
    (toLowerCase : string → string) (c : ToolCall) (w : World) (error : string) :
  fault w = Some error →
  fst (handle Date_parse toLowerCase c w) = Return (Failure error)
  ∧ rows (snd (handle Date_parse toLowerCase c w)) = rows w.
Proof.
  intros Hfault. destruct c; cbn [handle].
  - by rewrite create_study_item_fault with (error := error).
  - by rewrite update_study_performance_fault with (error := error).
  - by rewrite search_study_items_fault with (error := error).
  - by rewrite get_items_for_review_fault with (error := error).
  - unfold get_study_types, try_catch, bind, ret, sql.selectDistinct_type, sql.statement.
    by rewrite Hfault.
  - unfold get_learning_stats, try_catch, bind, ret, sql.select, sql.statement, Date_now.
    by rewrite Hfault.
Qed.

Lemma handle_storage_failure_witness :
  fst (handle host.Date_parse host.toLowerCase
         (call_create_study_item "alice" "vocab" "Merci" Level.A1 None None) sample.broken)
  = Return (Failure "D1_ERROR: no such table: study_items")
  ∧ rows (snd (handle host.Date_parse host.toLowerCase
                 (call_create_study_item "alice" "vocab" "Merci" Level.A1 None None)
                 sample.broken))
    = rows sample.broken.
Proof.
  apply (handle_storage_failure host.Date_parse host.toLowerCase
           (call_create_study_item "alice" "vocab" "Merci" Level.A1 None None)
           sample.broken "D1_ERROR: no such table: study_items").
  reflexivity.
Defined.

(** X7.  The four selecting tools never write: whatever their arguments and
    whatever the database does, the table is the same afterwards and no
    identifier has been drawn. *)
Theorem queries_never_write (Date_parse : string → JSNum)
    (toLowerCase : string → string) (c : ToolCall) (w : World) :
  is_query c →
  rows (snd (handle Date_parse toLowerCase c w)) = rows w
  ∧ drawn (snd (handle Date_parse toLowerCase c w)) = drawn w
  ∧ fault (snd (handle Date_parse toLowerCase c w)) = fault w.
Proof.
  intros Hquery. destruct c; try done; cbn [handle].
  - unfold search_study_items, try_catch, bind, ret, sql.select_orderBy, sql.statement.
    by destruct (fault w) eqn:Hfault.
  - unfold get_items_for_review, try_catch, bind, ret, sql.select_orderBy, sql.statement,
      Date_now.
    cbn [fault tick]. by destruct (fault w) eqn:Hfault.
  - unfold get_study_types, try_catch, bind, ret, sql.selectDistinct_type, sql.statement.
    by destruct (fault w) eqn:Hfault.
  - unfold get_learning_stats, try_catch, bind, ret, sql.select, sql.statement, Date_now.
    by destruct (fault w) eqn:Hfault.
Qed.

Lemma queries_never_write_witness :
  rows (snd (handle host.Date_parse host.toLowerCase
               (call_search_study_items "alice" (Some "jour") None None None)
               sample.world))
  = rows sample.world.
Proof.
  destruct (queries_never_write host.Date_parse host.toLowerCase
              (call_search_study_items "alice" (Some "jour") None None None)
              sample.world) as [Hrows _]; [exact I|exact Hrows].
Defined.

Lemma assign_immutable (a : studyItems.assignment) (r : StudyItem) :
  studyItems.id (studyItems.assign a r) = studyItems.id r
  ∧ studyItems.userId (studyItems.assign a r) = studyItems.userId r
  ∧ studyItems.type (studyItems.assign a r) = studyItems.type r
  ∧ studyItems.content (studyItems.assign a r) = studyItems.content r
  ∧ studyItems.level (studyItems.assign a r) = studyItems.level r
  ∧ studyItems.tags (studyItems.assign a r) = studyItems.tags r
  ∧ studyItems.notes (studyItems.assign a r) = studyItems.notes r
  ∧ studyItems.createdAt (studyItems.assign a r) = studyItems.createdAt r.
Proof. done. Qed.

(** X8.  No tool deletes or moves a row or changes what the user entered:
    after any call, every row that was in the table is at the same
    position with the same [id], [userId], [type], [content], [level],
    [tags], [notes] and [createdAt]. *)
Theorem handle_keeps_entered_columns (Date_parse : string → JSNum)
    (toLowerCase : string → string) (c : ToolCall) (w : World) (i : nat) (r : StudyItem) :
  rows w !! i = Some r →
  ∃ r' : StudyItem,
    rows (snd (handle Date_parse toLowerCase c w)) !! i = Some r'
    ∧ studyItems.id r' = studyItems.id r
    ∧ studyItems.userId r' = studyItems.userId r
    ∧ studyItems.type r' = studyItems.type r
    ∧ studyItems.content r' = studyItems.content r
    ∧ studyItems.level r' = studyItems.level r
    ∧ studyItems.tags r' = studyItems.tags r
    ∧ studyItems.notes r' = studyItems.notes r
    ∧ studyItems.createdAt r' = studyItems.createdAt r.
Proof.
  intros Hr. destruct c; cbn [handle].
  - exists r. split; [|by repeat split].
    destruct (fault w) as [error|] eqn:Hfault.
    { by rewrite create_study_item_fault with (error := error). }
    destruct (decide (fresh_id w)).
    + rewrite create_study_item_ok by done. unfold snd. rewrite rows_store.
      by apply lookup_app_l_Some.
    + by rewrite create_study_item_duplicate.
  - destruct (fault w) as [error|] eqn:Hfault.
    { exists r. rewrite update_study_performance_fault with (error := error) by done.
      by repeat split. }
    rewrite update_study_performance_lookup, Hr by done.
    cbn [fmap option_fmap option_map].
    case_decide; eexists; (split; [reflexivity|]);
      [apply assign_immutable|by repeat split].
  - exists r. rewrite search_study_items_rows. by repeat split.
  - exists r. rewrite get_items_for_review_rows. by repeat split.
  - exists r. rewrite get_study_types_rows. by repeat split.
  - exists r. rewrite get_learning_stats_rows. by repeat split.
Qed.

Lemma handle_keeps_entered_columns_witness :
  ∃ r' : StudyItem,
    rows (snd (handle host.Date_parse host.toLowerCase
                 (call_update_study_performance "i0" "alice" medium) sample.world))
      !! 0%nat = Some r'
    ∧ studyItems.id r' = "i0"
    ∧ studyItems.userId r' = "alice".
Proof.
  destruct (handle_keeps_entered_columns host.Date_parse host.toLowerCase
              (call_update_study_performance "i0" "alice" medium) sample.world 0
              sample.bonjour) as (r' & Hr' & Hid & Huser & _); [reflexivity|].
  exists r'. split; [exact Hr'|]. split; [exact Hid|exact Huser].
Defined.

(** X9.  The primary key stays a key: if no two rows share an [id] before a
    call, none do after it, whichever tool is called and whatever
    identifier is drawn. *)
Theorem handle_keeps_ids_distinct (Date_parse : string → JSNum)
    (toLowerCase : string → string) (c : ToolCall) (w : World) :
  NoDup (studyItems.id <$> rows w) →
  NoDup (studyItems.id <$> rows (snd (handle Date_parse toLowerCase c w))).
Proof.
  intros Hkey. destruct c; cbn [handle].
  - destruct (fault w) as [error|] eqn:Hfault.
    { by rewrite create_study_item_fault with (error := error). }
    destruct (decide (fresh_id w)) as [Hfresh|Hdup].
    + rewrite create_study_item_ok by done. unfold snd. rewrite rows_store, fmap_app.
      apply NoDup_app. split; [done|]. split; [|apply NoDup_singleton].
      intros x Hx Hnew. apply list_elem_of_singleton in Hnew as ->. by apply Hfresh.
    + by rewrite create_study_item_duplicate.
  - destruct (fault w) as [error|] eqn:Hfault.
    { by rewrite update_study_performance_fault with (error := error). }
    rewrite update_study_performance_ok by done. unfold snd.
    rewrite rows_store, <- list_fmap_compose.
    erewrite list_fmap_ext; [exact Hkey|]. intros i r _. simpl. by case_match.
  - by rewrite search_study_items_rows.
  - by rewrite get_items_for_review_rows.
  - by rewrite get_study_types_rows.
  - by rewrite get_learning_stats_rows.
Qed.

Lemma handle_keeps_ids_distinct_witness :
  NoDup (studyItems.id <$>
           rows (snd (handle host.Date_parse host.toLowerCase
                        (call_create_study_item "bob" "vocab" "Gracias" Level.A2 None None)
                        sample.world))).
Proof.
  apply (handle_keeps_ids_distinct host.Date_parse host.toLowerCase
           (call_create_study_item "bob" "vocab" "Gracias" Level.A2 None None)
           sample.world).
  apply (bool_decide_unpack _). vm_compute. exact I.
Defined.

(** ** How the tools compose *)

(** The due list of a user at the current second. *)
Lemma get_items_for_review_now (Date_parse : string → JSNum) (userId : string)
    (w : World) :
  fault w = None →
  ∃ due : list StudyItem,
    fst (get_items_for_review Date_parse userId None None w) = Return (Items due)
    ∧ ∀ r, r ∈ due ↔
        r ∈ rows w ∧ studyItems.userId r = userId
        ∧ studyItems.nextReview r ≤ clock w (reads w) / 1000.
Proof.
  intros Hfault.
  destruct (get_items_for_review_ok Date_parse userId None None w Hfault)
    as (due & -> & Hperm & _).
  exists due. split; [done|]. intros r. rewrite Hperm, list_elem_of_filter.
  unfold due_for, due_threshold, truthy. tauto.
Qed.

(** X10.  A created item can be listed at once and is not due at once: in
    any later state that still holds the table as the creation left it, a
    search of the same user without filters returns the item and
    [get_study_types] returns its type, while [get_items_for_review] returns
    it exactly when the clock has reached the creation second plus one
    hour. *)
Theorem create_study_item_then_list (Date_parse : string → JSNum)
    (toLowerCase : string → string) (userId type content : string) (level : Level.t)
    (tags : option (list string)) (notes : option string) (w w2 : World) :
  fault w = None →
  fresh_id w →
  rows w2 = rows (snd (create_study_item userId type content level tags notes w)) →
  fault w2 = None →
  ∃ (item : StudyItem) (found due : list StudyItem) (types : list string),
    fst (create_study_item userId type content level tags notes w)
    = Return (Created (studyItems.id item))
    ∧ fst (search_study_items toLowerCase userId None None None None w2)
      = Return (Items found)
    ∧ item ∈ found
    ∧ fst (get_study_types userId w2) = Return (Types types)
    ∧ type ∈ types
    ∧ fst (get_items_for_review Date_parse userId None None w2) = Return (Items due)
    ∧ (item ∈ due ↔ clock w (reads w) / 1000 + 3600 ≤ clock w2 (reads w2) / 1000).
Proof.
  intros Hfault Hfresh Hrows Hfault2.
  rewrite create_study_item_ok in Hrows by done. unfold snd in Hrows.
  rewrite rows_store in Hrows.
  set (item := created_item userId type content level tags notes w) in *.
  assert (item ∈ rows w2) as Hin by (rewrite Hrows; apply elem_of_app; right; left).
  assert (studyItems.nextReview item = clock w (reads w) / 1000 + 3600) as Hnext.
  { simpl. replace (clock w (reads w) + 1 * 60 * 60 * 1000)
      with (clock w (reads w) + 3600 * 1000) by lia.
    by rewrite Z.div_add. }
  destruct (search_study_items_ok toLowerCase userId None None None None w2 Hfault2)
    as (found & Hfound & Hperm & _).
  destruct (get_items_for_review_now Date_parse userId w2 Hfault2) as (due & Hdue & Hmem).
  exists item, found, due, (remove_dups (studyItems.type <$> owned_by userId (rows w2))).
  rewrite create_study_item_ok, Hfound, Hdue, get_study_types_ok by done.
  split; [done|]. split; [done|]. split.
  { rewrite Hperm. apply list_elem_of_filter. split; [|done]. by unfold search_hit. }
  split; [done|]. split.
  { rewrite elem_of_remove_dups, list_elem_of_fmap. exists item. split; [done|].
    by apply list_elem_of_filter. }
  split; [done|]. rewrite Hmem, Hnext. split; [by intros (_ & _ & ?)|]. by intros ?.
Qed.

Lemma create_study_item_then_list_witness :
  ∃ (item : StudyItem) (due : list StudyItem),
    fst (create_study_item "alice" "vocab" "Merci" Level.A1 None None sample.world)
    = Return (Created (studyItems.id item))
    ∧ fst (get_items_for_review host.Date_parse "alice" None None
             (snd (create_study_item "alice" "vocab" "Merci" Level.A1 None None
                     sample.world)))
      = Return (Items due)
    ∧ (item ∈ due ↔ 1700000000 + 3600 ≤ 1700000000).
Proof.
  destruct (create_study_item_then_list host.Date_parse host.toLowerCase
              "alice" "vocab" "Merci" Level.A1 None None sample.world
              (snd (create_study_item "alice" "vocab" "Merci" Level.A1 None None
                      sample.world)))
    as (item & found & due & types & Hrun & _ & _ & _ & _ & Hdue & Hiff);
    [reflexivity|apply (bool_decide_unpack _); vm_compute; exact I
    |reflexivity|reflexivity|].
  exists item, due. split; [exact Hrun|]. split; [exact Hdue|exact Hiff].
Defined.

Lemma seconds_after_hours (now hours : Z) :
  (now + hours * 60 * 60 * 1000) / 1000 = now / 1000 + hours * 3600.
Proof.
  replace (now + hours * 60 * 60 * 1000) with (now + hours * 3600 * 1000) by lia.
  by rewrite Z.div_add.
Qed.

(** X11.  An update with any recall strength touches the rows with the given
    [id] and [userId] and no other row, of the caller or not: a matching row
    gets the strength, [nextReview] at the second of the call plus the
    default interval of that strength in hours, and the two stamps; every
    other row is exactly as before, and the table keeps its length. *)
Theorem update_study_performance_reschedules (id userId : string) (s : RecallStrength)
    (w : World) (i : nat) (r : StudyItem) :
  fault w = None →
  rows w !! i = Some r →
  ∃ r' : StudyItem,
    rows (snd (update_study_performance id userId s w)) !! i = Some r'
    ∧ (¬ matched id userId r → r' = r)
    ∧ (matched id userId r →
       studyItems.recallStrength r' = s
       ∧ studyItems.nextReview r'
         = clock w (reads w) / 1000 + interval_of DEFAULT_SETTINGS s * 3600
       ∧ studyItems.lastReviewed r' = Some (clock w (S (reads w)) / 1000)
       ∧ studyItems.updatedAt r' = clock w (S (S (reads w))) / 1000)
    ∧ length (rows (snd (update_study_performance id userId s w))) = length (rows w).
Proof.
  intros Hfault Hr.
  rewrite update_study_performance_lookup, Hr by done.
  cbn [fmap option_fmap option_map]. eexists. split; [reflexivity|].
  split; [|split].
  - intros Hno. by rewrite decide_False.
  - intros Hyes. rewrite decide_True by done.
    cbn [studyItems.assign performance studyItems.recallStrength studyItems.nextReview
         studyItems.lastReviewed studyItems.updatedAt studyItems.s_recallStrength
         studyItems.s_nextReview studyItems.s_lastReviewed studyItems.s_updatedAt].
    by rewrite seconds_after_hours.
  - rewrite update_study_performance_ok by done. unfold snd.
    by rewrite rows_store, length_fmap.
Qed.

Lemma update_study_performance_reschedules_witness :
  ∃ r' : StudyItem,
    rows (snd (update_study_performance "i1" "alice" weak sample.world)) !! 0%nat = Some r'
    ∧ r' = sample.bonjour.
Proof.
  destruct (update_study_performance_reschedules "i1" "alice" weak sample.world 0
              sample.bonjour) as (r' & Hr' & Hsame & _); [reflexivity..|].
  exists r'. split; [exact Hr'|]. apply Hsame. intros [Hid _]. discriminate Hid.
Defined.

(** X12.  The last update wins: two updates of the same [id] and [userId] in
    a row leave the table exactly as the second alone would have left it at
    its own clock readings; nothing of the first one is kept. *)
Theorem update_study_performance_last_wins (id userId : string) (s1 s2 : RecallStrength)
    (w : World) :
  fault w = None →
  rows (snd (update_study_performance id userId s2
               (snd (update_study_performance id userId s1 w))))
  = rows (snd (update_study_performance id userId s2 (tick (tick (tick w))))).
Proof.
  intros Hfault.
  rewrite (update_study_performance_ok id userId s1 w) by done. unfold snd at 2.
  rewrite !update_study_performance_ok by done. unfold snd.
  rewrite !rows_store. cbn [rows store tick]. rewrite <- list_fmap_compose.
  apply list_fmap_ext. intros i r _. cbn [compose].
  destruct (sql.and _ r) eqn:Hc; [|by rewrite Hc].
  assert (sql.and [sql.eq studyItems.id id; sql.eq studyItems.userId userId]
            (studyItems.assign (performance s1 w) r) = true) as ->.
  { apply and_id_userId. by apply and_id_userId in Hc. }
  reflexivity.
Qed.

Lemma update_study_performance_last_wins_witness :
  rows (snd (update_study_performance "i0" "alice" weak
               (snd (update_study_performance "i0" "alice" strong sample.world))))
  = rows (snd (update_study_performance "i0" "alice" weak
                 (tick (tick (tick sample.world))))).
Proof.
  apply (update_study_performance_last_wins "i0" "alice" strong weak sample.world).
  reflexivity.
Defined.

(** X13.  An updated item leaves the due list for its interval: in any later
    state that still holds the table as the update left it,
    [get_items_for_review] returns the updated row exactly when the clock
    has reached the second of the update plus the default interval of the
    reported strength (1, 24 or 72 hours). *)
Theorem update_study_performance_then_due (Date_parse : string → JSNum)
    (id userId : string) (s : RecallStrength) (w w2 : World) (i : nat) (r : StudyItem) :
  fault w = None →
  rows w !! i = Some r →
  matched id userId r →
  rows w2 = rows (snd (update_study_performance id userId s w)) →
  fault w2 = None →
  ∃ (r' : StudyItem) (due : list StudyItem),
    rows w2 !! i = Some r'
    ∧ fst (get_items_for_review Date_parse userId None None w2) = Return (Items due)
    ∧ (r' ∈ due ↔
       clock w (reads w) / 1000 + interval_of DEFAULT_SETTINGS s * 3600
       ≤ clock w2 (reads w2) / 1000).
Proof.
  intros Hfault Hr Hmatch Hrows Hfault2.
  assert (rows w2 !! i = Some (studyItems.assign (performance s w) r)) as Hr'.
  { rewrite Hrows, update_study_performance_lookup, Hr by done.
    cbn [fmap option_fmap option_map]. by rewrite decide_True. }
  destruct (get_items_for_review_now Date_parse userId w2 Hfault2) as (due & Hdue & Hmem).
  exists (studyItems.assign (performance s w) r), due.
  split; [done|]. split; [done|]. rewrite Hmem.
  cbn [studyItems.assign performance studyItems.nextReview studyItems.userId
       studyItems.s_nextReview]. rewrite seconds_after_hours.
  split; [by intros (_ & _ & ?)|]. intros Hlate.
  split; [by eapply list_elem_of_lookup_2|]. split; [by destruct Hmatch|done].
Qed.

Lemma update_study_performance_then_due_witness :
  ∃ (r' : StudyItem) (due : list StudyItem),
    rows (snd (update_study_performance "i0" "alice" strong sample.world)) !! 0%nat
    = Some r'
    ∧ fst (get_items_for_review host.Date_parse "alice" None None
             (snd (update_study_performance "i0" "alice" strong sample.world)))
      = Return (Items due)
    ∧ (r' ∈ due ↔ 1700000000 + 72 * 3600 ≤ 1700000000).
Proof.
  destruct (update_study_performance_then_due host.Date_parse "i0" "alice" strong
              sample.world (snd (update_study_performance "i0" "alice" strong sample.world))
              0 sample.bonjour) as (r' & due & Hr' & Hdue & Hiff);
    [reflexivity|reflexivity|by split|reflexivity|reflexivity|].
  exists r', due. split; [exact Hr'|]. split; [exact Hdue|exact Hiff].
Defined.

Lemma count_where_pos (P : StudyItem → bool) (x : StudyItem) (l : list StudyItem) :
  x ∈ l → P x = true → (1 ≤ count_where P l)%nat.
Proof.
  intros Hin HP. unfold count_where.
  assert (x ∈ filter (λ item, P item) l) as Hx.
  { apply list_elem_of_filter. split; [by apply Is_true_true|done]. }
  destruct (filter _ l); [by apply elem_of_nil in Hx|simpl; lia].
Qed.

(** X14.  A recorded review shows in the statistics: after a successful
    update of a row of the user, and as long as the table is as the update
    left it, [reviewedToday] is at least 1 whenever the statistics are taken
    no more than 86400 seconds after the update (and the update was not
    stamped with second 0, which the tool reads as never reviewed). *)
Theorem update_study_performance_then_stats (id userId : string) (s : RecallStrength)
    (w w2 : World) (i : nat) (r : StudyItem) :
  fault w = None →
  rows w !! i = Some r →
  matched id userId r →
  rows w2 = rows (snd (update_study_performance id userId s w)) →
  fault w2 = None →
  clock w (S (reads w)) / 1000 ≠ 0 →
  clock w2 (reads w2) / 1000 - 86400 ≤ clock w (S (reads w)) / 1000 →
  ∃ stats : LearningStats,
    fst (get_learning_stats userId w2) = Return (Stats stats)
    ∧ (1 ≤ reviewedToday stats)%nat.
Proof.
  intros Hfault Hr Hmatch Hrows Hfault2 Hnonzero Hrecent.
  assert (rows w2 !! i = Some (studyItems.assign (performance s w) r)) as Hr'.
  { rewrite Hrows, update_study_performance_lookup, Hr by done.
    cbn [fmap option_fmap option_map]. by rewrite decide_True. }
  eexists. rewrite get_learning_stats_ok by done. split; [done|].
  cbn [learning_stats reviewedToday].
  apply (count_where_pos _ (studyItems.assign (performance s w) r)).
  - apply list_elem_of_filter. split; [by destruct Hmatch|].
    by eapply list_elem_of_lookup_2.
  - cbn [studyItems.assign performance studyItems.lastReviewed
         studyItems.s_lastReviewed].
    by rewrite andb_true_iff, !bool_decide_eq_true.
Qed.

Lemma update_study_performance_then_stats_witness :
  ∃ stats : LearningStats,
    fst (get_learning_stats "alice"
           (snd (update_study_performance "i0" "alice" medium sample.world)))
    = Return (Stats stats)
    ∧ (1 ≤ reviewedToday stats)%nat.
Proof.
  apply (update_study_performance_then_stats "i0" "alice" medium sample.world
           (snd (update_study_performance "i0" "alice" medium sample.world))
           0 sample.bonjour);
    [reflexivity|reflexivity|by split|reflexivity|reflexivity
    |vm_compute; discriminate|vm_compute; discriminate].
Defined.
